(** * drawscape_factorio.create: canvas layout, bounds and grid

    A shallow embedding of [src/drawscape_factorio/create.py] and the
    properties of its geometry: [get_entity_bounds],
    [calculate_canvas_and_viewbox], [create_grid] and the group order of
    [create].

    Numbers.  The module is embedded twice.  In the main development
    Python's [int] and [float] values are read as exact rationals ([Q]);
    [/] is true division and raises [ZeroDivisionError] on a zero divisor,
    and numeric results are compared with [==] (equality of rationals).
    Module [Binary64] repeats [get_entity_bounds] and
    [calculate_canvas_and_viewbox] over IEEE 754 binary64 numbers, the
    arithmetic Python's [float] has, for entities whose coordinates are
    floats; it is used to run the code on concrete inputs, where rounding
    shows. *)

From Stdlib Require Import PrimFloat.
From Stdlib Require Import QArith Qminmax Qround Qabs ZArith.
From Stdlib Require Import List String Bool Lia Lqa.
Import ListNotations.

Local Open Scope Q_scope.

(** ** Run-time failures and the error monad *)

(** The two exceptions the code under study can raise by itself. *)
Inductive exception : Type :=
| TypeError          (* 'NoneType' object is not subscriptable *)
| ZeroDivisionError. (* division by zero *)

Inductive result (A : Type) : Type :=
| Ok (a : A)
| Raise (e : exception).

Arguments Ok {A} a.
Arguments Raise {A} e.

Definition bind {A B : Type} (m : result A) (k : A -> result B) : result B :=
  match m with
  | Ok a => k a
  | Raise e => Raise e
  end.

Notation "x <- m ;; k" := (bind m (fun x => k))
  (at level 61, m at next level, right associativity).

(** ** Python primitives used by the module *)

Module Py.

(** [a / b] *)
Definition truediv (a b : Q) : result Q :=
  if Qeq_bool b 0 then Raise ZeroDivisionError else Ok (a / b).

(** [min(a, b)]: the second argument wins only when strictly smaller. *)
Definition min2 (a b : Q) : Q :=
  match b ?= a with Lt => b | _ => a end.

(** [max(a, b)]: the second argument wins only when strictly larger. *)
Definition max2 (a b : Q) : Q :=
  match b ?= a with Gt => b | _ => a end.

(** [min(it)] and [max(it)] over an iterable whose first item is [first]. *)
Definition min_from (first : Q) (rest : list Q) : Q := fold_left min2 rest first.
Definition max_from (first : Q) (rest : list Q) : Q := fold_left max2 rest first.

(** [int(q)]: truncation toward zero. *)
Definition int (q : Q) : Z := Z.quot (Qnum q) (Zpos (Qden q)).

(** [range(lo, hi)] *)
Definition range (lo hi : Z) : list Z :=
  map (fun i => (lo + Z.of_nat i)%Z) (seq 0 (Z.to_nat (hi - lo))).

End Py.

(** ** Data model *)

(** An entity record: a dict with numeric ['x'] and ['y'] and whatever
    other keys the exporter wrote. *)
Module entity.
Record t : Type := mk { x : Q; y : Q; attrs : list (string * string) }.
End entity.

(** The parsed blueprint: category name to entity sequence, in the dict's
    insertion order. *)
Definition dataset : Type := list (string * list entity.t).

(** [data.values()] *)
Definition values (data : dataset) : list (list entity.t) := map snd data.

(** [data.get(key, [])] *)
Fixpoint data_get (data : dataset) (key : string) : list entity.t :=
  match data with
  | [] => []
  | (k, es) :: rest => if String.eqb k key then es else data_get rest key
  end.

(** The dict returned by [get_entity_bounds]. *)
Module bounds.
Record t : Type := mk { min_x : Q; max_x : Q; min_y : Q; max_y : Q }.
End bounds.

(** [bounds[key]] on a value that may be [None]. *)
Definition getitem (b : option bounds.t) (key : bounds.t -> Q) : result Q :=
  match b with
  | Some d => Ok (key d)
  | None => Raise TypeError
  end.

(** ** get_entity_bounds *)

(** The flattening comprehension
    [[entity for category in data.values() for entity in category]]. *)
Definition all_entities (data : dataset) : list entity.t :=
  List.concat (values data).

Definition get_entity_bounds (data : dataset) : option bounds.t :=
  match all_entities data with
  | [] => None
  | e :: rest =>
      let min_x := Py.min_from (entity.x e) (map entity.x rest) in
      let max_x := Py.max_from (entity.x e) (map entity.x rest) in
      let min_y := Py.min_from (entity.y e) (map entity.y rest) in
      let max_y := Py.max_from (entity.y e) (map entity.y rest) in
      Some (bounds.mk min_x max_x min_y max_y)
  end.

(** ** calculate_canvas_and_viewbox *)

(** The local variables of [calculate_canvas_and_viewbox] when it reaches
    its [return]. *)
Module frame.
Record t : Type := mk {
  svg_width_mm : Q;
  svg_height_mm : Q;
  padding_mm : Q;
  content_width_mm : Q;
  content_height_mm : Q;
  width : Q;
  height : Q;
  scale : Q;
  scaled_width : Q;
  scaled_height : Q;
  x_offset : Q;
  y_offset : Q;
  viewbox_width : Q;
  viewbox_height : Q;
  viewbox_x : Q;
  viewbox_y : Q
}.
End frame.

(** The body of the function, statement by statement, up to the [return]. *)
Definition calculate_canvas_and_viewbox_body
    (data : dataset) (orientation : string) : result frame.t :=
  let svg_width_mm := if String.eqb orientation "landscape" then 297 else 210 in
  let svg_height_mm := if String.eqb orientation "landscape" then 210 else 297 in
  let padding_mm := 10 in
  let content_width_mm := svg_width_mm - 2 * padding_mm in
  let content_height_mm := svg_height_mm - 2 * padding_mm in
  let bounds := get_entity_bounds data in
  b_max_x <- getitem bounds bounds.max_x ;;
  b_min_x <- getitem bounds bounds.min_x ;;
  let width := b_max_x - b_min_x in
  b_max_y <- getitem bounds bounds.max_y ;;
  b_min_y <- getitem bounds bounds.min_y ;;
  let height := b_max_y - b_min_y in
  ratio_w <- Py.truediv content_width_mm width ;;
  ratio_h <- Py.truediv content_height_mm height ;;
  let scale := Py.min2 ratio_w ratio_h in
  let scaled_width := width * scale in
  let scaled_height := height * scale in
  let x_offset := (svg_width_mm - scaled_width) / 2 in
  let y_offset := (svg_height_mm - scaled_height) / 2 in
  viewbox_width <- Py.truediv svg_width_mm scale ;;
  viewbox_height <- Py.truediv svg_height_mm scale ;;
  b_min_x' <- getitem bounds bounds.min_x ;;
  shift_x <- Py.truediv (x_offset - padding_mm) scale ;;
  let viewbox_x := b_min_x' - shift_x in
  b_min_y' <- getitem bounds bounds.min_y ;;
  shift_y <- Py.truediv (y_offset - padding_mm) scale ;;
  let viewbox_y := b_min_y' - shift_y in
  Ok (frame.mk svg_width_mm svg_height_mm padding_mm
        content_width_mm content_height_mm width height scale
        scaled_width scaled_height x_offset y_offset
        viewbox_width viewbox_height viewbox_x viewbox_y).

(** The returned tuple. *)
Definition layout : Type := (Q * Q * Q * Q * Q * Q)%type.

Definition calculate_canvas_and_viewbox
    (data : dataset) (orientation : string) : result layout :=
  f <- calculate_canvas_and_viewbox_body data orientation ;;
  Ok (frame.svg_width_mm f, frame.svg_height_mm f,
      frame.viewbox_x f, frame.viewbox_y f,
      frame.viewbox_width f, frame.viewbox_height f).

(** ** The drawing: svgwrite objects as this module uses them *)

Section Drawing.

(** What a theme's render method returns. *)
Variable shape : Type.

Inductive element : Type :=
| Line (start stop : Q * Q) (stroke : string) (stroke_width : Q)
| Rendered (s : shape).

(** [dwg.g(id=...)] and what [group.add] appended to it. *)
Record group : Type := mk_group { id : string; elements : list element }.

(** [svgwrite.Drawing(...)] and the groups [dwg.add] appended to it. *)
Record drawing : Type := mk_drawing {
  filename : string;
  size : Q * Q;
  viewBox : Q * Q * Q * Q;
  groups : list group
}.

Definition g (name : string) : group := mk_group name [].

Definition group_add (grp : group) (e : element) : group :=
  mk_group (id grp) (elements grp ++ [e]).

Definition add (dwg : drawing) (grp : group) : drawing :=
  mk_drawing (filename dwg) (size dwg) (viewBox dwg) (groups dwg ++ [grp]).

(** The interface shared by [DefaultTheme] and [CirclesTheme]. *)
Record Theme : Type := mk_theme {
  render_belt : entity.t -> shape;
  render_wall : entity.t -> shape;
  render_splitter : entity.t -> shape;
  render_asset : entity.t -> shape;
  render_spaceship : entity.t -> shape;
  render_rail : entity.t -> shape
}.

(** *** create_grid *)

Definition create_grid (dwg : drawing)
    (viewbox_x viewbox_y viewbox_width viewbox_height : Q) : drawing :=
  let grid_color := "rgb(200,200,200)"%string in
  let grid_stroke_width := 0.05 in
  let grid_group := g "grid" in
  let grid_group :=
    fold_left
      (fun grp x =>
         group_add grp
           (Line (inject_Z x, viewbox_y)
                 (inject_Z x, viewbox_y + viewbox_height)
                 grid_color grid_stroke_width))
      (Py.range (Py.int viewbox_x) (Py.int (viewbox_x + viewbox_width) + 1))
      grid_group in
  let grid_group :=
    fold_left
      (fun grp y =>
         group_add grp
           (Line (viewbox_x, inject_Z y)
                 (viewbox_x + viewbox_width, inject_Z y)
                 grid_color grid_stroke_width))
      (Py.range (Py.int viewbox_y) (Py.int (viewbox_y + viewbox_height) + 1))
      grid_group in
  add dwg grid_group.

(** *** create *)

(** The two theme objects [create] chooses from; their classes live in
    other modules of the package. *)
Variables CirclesTheme DefaultTheme : Theme.

(** The [entity_types] dict, in insertion order. *)
Definition entity_types (theme : Theme) : list (string * (entity.t -> shape)) :=
  [ ("belts"%string, render_belt theme);
    ("walls"%string, render_wall theme);
    ("splitters"%string, render_splitter theme);
    ("asset"%string, render_asset theme);
    ("spaceship"%string, render_spaceship theme);
    ("rails"%string, render_rail theme) ].

(** One turn of the loop over [entity_types.items()]: build the group of a
    category and add it to the drawing if the category has entities. *)
Definition add_category (data : dataset) (dwg : drawing)
    (item : string * (entity.t -> shape)) : drawing :=
  let (entity_type, render_method) := item in
  let group := g entity_type in
  let entities := data_get data entity_type in
  let group :=
    fold_left
      (fun grp entity => group_add grp (Rendered (render_method entity)))
      entities group in
  match entities with
  | [] => dwg
  | _ :: _ => add dwg group
  end.

(** [create], from the [data] that [parseJSON] returned up to [dwg.save()];
    the result is the drawing that is saved.  The messages printed and the
    optional optimisation pass that follow do not change it. *)
Definition create (data : dataset) (template output_file_name : string)
    : result drawing :=
  let theme := if String.eqb template "circles" then CirclesTheme
               else DefaultTheme in
  lay <- calculate_canvas_and_viewbox data "landscape" ;;
  let '(svg_width_mm, svg_height_mm, viewbox_x, viewbox_y,
        viewbox_width, viewbox_height) := lay in
  let dwg := mk_drawing output_file_name (svg_width_mm, svg_height_mm)
               (viewbox_x, viewbox_y, viewbox_width, viewbox_height) [] in
  let dwg := create_grid dwg viewbox_x viewbox_y viewbox_width viewbox_height in
  let dwg := fold_left (add_category data) (entity_types theme) dwg in
  Ok dwg.

End Drawing.

Arguments Line {shape} start stop stroke stroke_width.
Arguments Rendered {shape} s.
Arguments mk_group {shape} id elements.
Arguments id {shape} g.
Arguments elements {shape} g.
Arguments mk_drawing {shape} filename size viewBox groups.
Arguments filename {shape} d.
Arguments size {shape} d.
Arguments viewBox {shape} d.
Arguments groups {shape} d.
Arguments create_grid {shape} dwg viewbox_x viewbox_y viewbox_width viewbox_height.
Arguments create {shape} CirclesTheme DefaultTheme data template output_file_name.
Arguments entity_types {shape} theme.
Arguments add_category {shape} data dwg item.

(** ** The layout and grid as the specification words them *)

Module Spec.

Inductive Orientation : Type := Landscape | Portrait.

(** The string the entry point passes for an orientation. *)
Definition name (o : Orientation) : string :=
  match o with
  | Landscape => "landscape"
  | Portrait => "portrait"
  end.

Definition padding : Q := 10.

Definition page_width_mm (o : Orientation) : Q :=
  match o with Landscape => 297 | Portrait => 210 end.

Definition page_height_mm (o : Orientation) : Q :=
  match o with Landscape => 210 | Portrait => 297 end.

(** Steps 1 to 9 of the layout algorithm, with every intermediate value
    it names. *)
Definition compute_frame (b : bounds.t) (o : Orientation) : frame.t :=
  let content_width_mm := page_width_mm o - 2 * padding in
  let content_height_mm := page_height_mm o - 2 * padding in
  let width := bounds.max_x b - bounds.min_x b in
  let height := bounds.max_y b - bounds.min_y b in
  let scale := Qmin (content_width_mm / width) (content_height_mm / height) in
  let scaled_width := width * scale in
  let scaled_height := height * scale in
  let x_offset := (page_width_mm o - scaled_width) / 2 in
  let y_offset := (page_height_mm o - scaled_height) / 2 in
  let viewbox_width := page_width_mm o / scale in
  let viewbox_height := page_height_mm o / scale in
  let viewbox_x := bounds.min_x b - (x_offset - padding) / scale in
  let viewbox_y := bounds.min_y b - (y_offset - padding) / scale in
  frame.mk (page_width_mm o) (page_height_mm o) padding
    content_width_mm content_height_mm width height scale
    scaled_width scaled_height x_offset y_offset
    viewbox_width viewbox_height viewbox_x viewbox_y.

(** What [compute_layout] returns: page dimensions and viewbox. *)
Definition compute_layout (b : bounds.t) (o : Orientation) : layout :=
  let f := compute_frame b o in
  (frame.svg_width_mm f, frame.svg_height_mm f,
   frame.viewbox_x f, frame.viewbox_y f,
   frame.viewbox_width f, frame.viewbox_height f).

(** The integers from [lo] to [hi] inclusive, ascending. *)
Definition integers (lo hi : Z) : list Z :=
  map (fun i => (lo + Z.of_nat i)%Z) (seq 0 (Z.to_nat (hi + 1 - lo))).

(** A grid line as its two end points. *)
Definition segment : Type := ((Q * Q) * (Q * Q))%type.

Definition vertical_lines (vx vy vw vh : Q) : list segment :=
  map (fun i => ((inject_Z i, vy), (inject_Z i, vy + vh)))
      (integers (Qfloor vx) (Qfloor (vx + vw))).

Definition horizontal_lines (vx vy vw vh : Q) : list segment :=
  map (fun j => ((vx, inject_Z j), (vx + vw, inject_Z j)))
      (integers (Qfloor vy) (Qfloor (vy + vh))).

(** The fixed rendering order of the categories. *)
Definition category_order : list string :=
  [ "belts"; "walls"; "splitters"; "asset"; "spaceship"; "rails" ]%string.

End Spec.

(** ** Vocabulary of the statements *)

(** An entity with no other keys than its position. *)
Definition ent (px py : Q) : entity.t := entity.mk px py [].

(** The collection holds at least one entity. *)
Definition nonempty (data : dataset) : Prop :=
  exists category entities e, In (category, entities) data /\ In e entities.

(** Every category's sequence is empty. *)
Definition all_categories_empty (data : dataset) : Prop :=
  forall category entities, In (category, entities) data -> entities = [].

(** [e] is an entity of some category of [data]. *)
Definition entity_of (data : dataset) (e : entity.t) : Prop :=
  exists category entities, In (category, entities) data /\ In e entities.

(** The point of [e] lies in the rectangle [b]. *)
Definition inside (b : bounds.t) (e : entity.t) : Prop :=
  bounds.min_x b <= entity.x e <= bounds.max_x b /\
  bounds.min_y b <= entity.y e <= bounds.max_y b.

(** The viewbox of a returned tuple covers the rectangle [b]. *)
Definition covers (lay : layout) (b : bounds.t) : Prop :=
  let '(_, _, viewbox_x, viewbox_y, viewbox_width, viewbox_height) := lay in
  viewbox_x <= bounds.min_x b /\
  bounds.max_x b <= viewbox_x + viewbox_width /\
  viewbox_y <= bounds.min_y b /\
  bounds.max_y b <= viewbox_y + viewbox_height.

(** The tuple a frame returns. *)
Definition returned (f : frame.t) : layout :=
  (frame.svg_width_mm f, frame.svg_height_mm f,
   frame.viewbox_x f, frame.viewbox_y f,
   frame.viewbox_width f, frame.viewbox_height f).

(** The end points of the lines of a group, and the lines split by
    direction: a vertical line keeps its abscissa. *)
Definition segment_of {shape : Type} (e : element shape) : option Spec.segment :=
  match e with
  | Line start stop _ _ => Some (start, stop)
  | Rendered _ => None
  end.

Fixpoint segments {shape : Type} (es : list (element shape)) : list Spec.segment :=
  match es with
  | [] => []
  | e :: rest =>
      match segment_of e with
      | Some s => s :: segments rest
      | None => segments rest
      end
  end.

(** A drawing with nothing added yet. *)
Definition blank (shape : Type) : drawing shape :=
  mk_drawing "output.svg"%string (297, 210) (0, 0, 297, 210) [].

(** The grid group [create_grid] appends, as a declarative list: vertical
    lines for [xs], then horizontal lines for [ys]. *)
Definition grid_of {shape : Type} (vx vy vw vh : Q) (xs ys : list Z) : group shape :=
  mk_group "grid"%string
    (map (fun i => Line (inject_Z i, vy) (inject_Z i, vy + vh)
                     "rgb(200,200,200)"%string 0.05) xs ++
     map (fun j => Line (vx, inject_Z j) (vx + vw, inject_Z j)
                     "rgb(200,200,200)"%string 0.05) ys).

(** The group a category contributes to the drawing: none when it has no
    entity. *)
Definition contribution {shape : Type} (data : dataset)
    (item : string * (entity.t -> shape)) : list (group shape) :=
  match data_get data (fst item) with
  | [] => []
  | _ :: _ =>
      [mk_group (fst item)
         (map (fun e => Rendered (snd item e)) (data_get data (fst item)))]
  end.

(** The theme [create] selects for a template name. *)
Definition chosen {shape : Type} (CirclesTheme DefaultTheme : Theme shape)
    (template : string) : Theme shape :=
  if String.eqb template "circles" then CirclesTheme else DefaultTheme.

(** [data.get(category, [])] is truthy. *)
Definition has_entities (data : dataset) (category : string) : bool :=
  match data_get data category with
  | [] => false
  | _ :: _ => true
  end.

(** The group order of a finished drawing: the grid group, then the
    groups of the categories that have entities, in the fixed order, each
    holding the rendered entities in sequence order. *)
Definition groups_in_order {shape : Type} (theme : Theme shape)
    (data : dataset) (dwg : drawing shape) : Prop :=
  exists grid rest,
    groups dwg = grid :: rest /\
    id grid = "grid"%string /\
    map id rest = filter (has_entities data) Spec.category_order /\
    forall grp, In grp rest ->
      exists render,
        In (id grp, render) (entity_types theme) /\
        elements grp = map (fun e => Rendered (render e)) (data_get data (id grp)).

(** A theme that returns the entity itself. *)
Definition echo : Theme entity.t :=
  mk_theme entity.t (fun e => e) (fun e => e) (fun e => e)
    (fun e => e) (fun e => e) (fun e => e).

(** The bounds of the worked scenario. *)
Definition scenario_bounds : bounds.t := bounds.mk 0 100 0 50.

Definition scenario_data : dataset :=
  [ ("asset"%string, [ent 0 0; ent 100 50]) ].

(** The worked scenario as a statement about the frame [f] reached on
    [scenario_bounds] in landscape, with [x_offset] within [tolerance] of
    [expected_x_offset]. *)
Definition scenario_values (expected_x_offset tolerance : Q) (f : frame.t) : Prop :=
  frame.svg_width_mm f == 297 /\ frame.svg_height_mm f == 210 /\
  frame.content_width_mm f == 277 /\ frame.content_height_mm f == 190 /\
  frame.scale f == Qmin (277 / 100) (190 / 50) /\ frame.scale f == 2.77 /\
  frame.scaled_width f == 277 /\ frame.scaled_height f == 138.5 /\
  Qabs (frame.x_offset f - expected_x_offset) <= tolerance /\
  frame.y_offset f == (210 - 138.5) / 2 /\ frame.y_offset f == 35.75 /\
  covers (returned f) scenario_bounds.

(** The grid of the specification: [dwg'] is [dwg] with one more group
    whose lines are the vertical lines at the integers from
    [floor viewbox_x] to [floor (viewbox_x + viewbox_width)], then the
    horizontal ones likewise. *)
Definition grid_as_specified {shape : Type} (dwg dwg' : drawing shape)
    (vx vy vw vh : Q) : Prop :=
  exists grid,
    groups dwg' = groups dwg ++ [grid] /\
    segments (elements grid)
    = Spec.vertical_lines vx vy vw vh ++ Spec.horizontal_lines vx vy vw vh.

(** A segment whose end points share their abscissa. *)
Definition is_vertical (s : Spec.segment) : bool :=
  Qeq_bool (fst (fst s)) (fst (snd s)).

(** Two runs end alike: both return, with results related by [R], or
    both raise the same exception. *)
Definition same_result {A : Type} (R : A -> A -> Prop) (m m' : result A) : Prop :=
  match m, m' with
  | Ok a, Ok a' => R a a'
  | Raise e, Raise e' => e = e'
  | _, _ => False
  end.

(** Rectangles and returned tuples that are equal as numbers. *)
Definition same_bounds (b b' : bounds.t) : Prop :=
  bounds.min_x b == bounds.min_x b' /\ bounds.max_x b == bounds.max_x b' /\
  bounds.min_y b == bounds.min_y b' /\ bounds.max_y b == bounds.max_y b'.

Definition same_layout (l l' : layout) : Prop :=
  let '(pw, ph, vx, vy, vw, vh) := l in
  let '(pw', ph', vx', vy', vw', vh') := l' in
  pw == pw' /\ ph == ph' /\ vx == vx' /\ vy == vy' /\ vw == vw' /\ vh == vh'.

(** ** The binary64 reading *)

(** [get_entity_bounds] and [calculate_canvas_and_viewbox] once more, on
    entities whose ['x'] and ['y'] are Python floats.  The integer
    constants of the code (297, 210, 10, 2) meet floats in every
    operation and are converted exactly.  Float division raises
    [ZeroDivisionError] on a divisor equal to zero and otherwise rounds to
    nearest; comparisons are those of IEEE 754. *)
Module Binary64.

(** [a / b] *)
Definition truediv (a b : float) : result float :=
  if PrimFloat.eqb b 0%float then Raise ZeroDivisionError
  else Ok (PrimFloat.div a b).

(** [min(a, b)] and [max(a, b)]: the second argument wins only when
    strictly smaller (larger). *)
Definition min2 (a b : float) : float := if PrimFloat.ltb b a then b else a.
Definition max2 (a b : float) : float := if PrimFloat.ltb a b then b else a.

Definition min_from (first : float) (rest : list float) : float :=
  fold_left min2 rest first.
Definition max_from (first : float) (rest : list float) : float :=
  fold_left max2 rest first.

Module entity.
Record t : Type := mk { x : float; y : float; attrs : list (string * string) }.
End entity.

Definition dataset : Type := list (string * list entity.t).

Definition all_entities (data : dataset) : list entity.t :=
  List.concat (map snd data).

Module bounds.
Record t : Type := mk { min_x : float; max_x : float; min_y : float; max_y : float }.
End bounds.

Definition getitem (b : option bounds.t) (key : bounds.t -> float) : result float :=
  match b with
  | Some d => Ok (key d)
  | None => Raise TypeError
  end.

Definition get_entity_bounds (data : dataset) : option bounds.t :=
  match all_entities data with
  | [] => None
  | e :: rest =>
      let min_x := min_from (entity.x e) (map entity.x rest) in
      let max_x := max_from (entity.x e) (map entity.x rest) in
      let min_y := min_from (entity.y e) (map entity.y rest) in
      let max_y := max_from (entity.y e) (map entity.y rest) in
      Some (bounds.mk min_x max_x min_y max_y)
  end.

Module frame.
Record t : Type := mk {
  svg_width_mm : float;
  svg_height_mm : float;
  padding_mm : float;
  content_width_mm : float;
  content_height_mm : float;
  width : float;
  height : float;
  scale : float;
  scaled_width : float;
  scaled_height : float;
  x_offset : float;
  y_offset : float;
  viewbox_width : float;
  viewbox_height : float;
  viewbox_x : float;
  viewbox_y : float
}.
End frame.

Definition calculate_canvas_and_viewbox_body
    (data : dataset) (orientation : string) : result frame.t :=
  let svg_width_mm :=
    if String.eqb orientation "landscape" then 297%float else 210%float in
  let svg_height_mm :=
    if String.eqb orientation "landscape" then 210%float else 297%float in
  let padding_mm := 10%float in
  let content_width_mm :=
    PrimFloat.sub svg_width_mm (PrimFloat.mul 2%float padding_mm) in
  let content_height_mm :=
    PrimFloat.sub svg_height_mm (PrimFloat.mul 2%float padding_mm) in
  let bounds := get_entity_bounds data in
  b_max_x <- getitem bounds bounds.max_x ;;
  b_min_x <- getitem bounds bounds.min_x ;;
  let width := PrimFloat.sub b_max_x b_min_x in
  b_max_y <- getitem bounds bounds.max_y ;;
  b_min_y <- getitem bounds bounds.min_y ;;
  let height := PrimFloat.sub b_max_y b_min_y in
  ratio_w <- truediv content_width_mm width ;;
  ratio_h <- truediv content_height_mm height ;;
  let scale := min2 ratio_w ratio_h in
  let scaled_width := PrimFloat.mul width scale in
  let scaled_height := PrimFloat.mul height scale in
  let x_offset :=
    PrimFloat.div (PrimFloat.sub svg_width_mm scaled_width) 2%float in
  let y_offset :=
    PrimFloat.div (PrimFloat.sub svg_height_mm scaled_height) 2%float in
  viewbox_width <- truediv svg_width_mm scale ;;
  viewbox_height <- truediv svg_height_mm scale ;;
  b_min_x' <- getitem bounds bounds.min_x ;;
  shift_x <- truediv (PrimFloat.sub x_offset padding_mm) scale ;;
  let viewbox_x := PrimFloat.sub b_min_x' shift_x in
  b_min_y' <- getitem bounds bounds.min_y ;;
  shift_y <- truediv (PrimFloat.sub y_offset padding_mm) scale ;;
  let viewbox_y := PrimFloat.sub b_min_y' shift_y in
  Ok (frame.mk svg_width_mm svg_height_mm padding_mm
        content_width_mm content_height_mm width height scale
        scaled_width scaled_height x_offset y_offset
        viewbox_width viewbox_height viewbox_x viewbox_y).

Definition layout : Type := (float * float * float * float * float * float)%type.

Definition calculate_canvas_and_viewbox
    (data : dataset) (orientation : string) : result layout :=
  f <- calculate_canvas_and_viewbox_body data orientation ;;
  Ok (frame.svg_width_mm f, frame.svg_height_mm f,
      frame.viewbox_x f, frame.viewbox_y f,
      frame.viewbox_width f, frame.viewbox_height f).

(** An entity with no other keys than its position. *)
Definition ent (px py : float) : entity.t := entity.mk px py [].

(** The viewbox of a returned tuple covers the rectangle [b]: the four
    comparisons [viewbox_x <= min_x], [max_x <= viewbox_x + viewbox_width],
    [viewbox_y <= min_y], [max_y <= viewbox_y + viewbox_height]. *)
Definition covers (lay : layout) (b : bounds.t) : bool :=
  let '(_, _, viewbox_x, viewbox_y, viewbox_width, viewbox_height) := lay in
  PrimFloat.leb viewbox_x (bounds.min_x b) &&
  PrimFloat.leb (bounds.max_x b) (PrimFloat.add viewbox_x viewbox_width) &&
  PrimFloat.leb viewbox_y (bounds.min_y b) &&
  PrimFloat.leb (bounds.max_y b) (PrimFloat.add viewbox_y viewbox_height).



(** The worked scenario with float coordinates. *)
Definition scenario_data : dataset :=
  [ ("asset"%string, [ent 0%float 0%float; ent 100%float 50%float]) ].

End Binary64.

(** ** Vocabulary of the further properties *)

(** Both collections hold the same entities, in whatever categories,
    order and multiplicity. *)
Definition same_entities (d1 d2 : dataset) : Prop :=
  forall e, entity_of d1 e <-> entity_of d2 e.

(** The bounds of two collections agree: both absent, or both present
    and equal as numbers. *)
Definition same_optional_bounds (o1 o2 : option bounds.t) : Prop :=
  match o1, o2 with
  | None, None => True
  | Some b1, Some b2 => same_bounds b1 b2
  | _, _ => False
  end.

(** The orientation an orientation string selects: anything but
    ["landscape"] is portrait. *)
Definition orientation_of (orientation : string) : Spec.Orientation :=
  if String.eqb orientation "landscape" then Spec.Landscape else Spec.Portrait.

(** The same transformation applied to every entity of every category. *)
Definition map_entities (f : entity.t -> entity.t) (data : dataset) : dataset :=
  map (fun item => (fst item, map f (snd item))) data.

(** An entity with its coordinates exchanged. *)
Definition transpose (e : entity.t) : entity.t :=
  entity.mk (entity.y e) (entity.x e) (entity.attrs e).

(** [l'] is [l] with the two axes exchanged. *)
Definition transposed_layout (l l' : layout) : Prop :=
  let '(pw, ph, vx, vy, vw, vh) := l in
  let '(pw', ph', vx', vy', vw', vh') := l' in
  pw' == ph /\ ph' == pw /\ vx' == vy /\ vy' == vx /\ vw' == vh /\ vh' == vw.

Definition other_orientation (o : Spec.Orientation) : Spec.Orientation :=
  match o with
  | Spec.Landscape => Spec.Portrait
  | Spec.Portrait => Spec.Landscape
  end.

(** * Properties *)

(** ** Python's [min], [max] and [/] *)

Section MinMax.

Lemma min2_spec (a b : Q) : Py.min2 a b = Qmin a b.
Proof.
  unfold Py.min2, Qmin, GenericMinMax.gmin.
  rewrite <- (Qcompare_antisym a b).
  destruct (a ?= b); reflexivity.
Qed.

Lemma min2_le_l (a b : Q) : Py.min2 a b <= a.
Proof. rewrite min2_spec. apply Q.le_min_l. Qed.

Lemma min2_le_r (a b : Q) : Py.min2 a b <= b.
Proof. rewrite min2_spec. apply Q.le_min_r. Qed.

Lemma max2_ge_l (a b : Q) : a <= Py.max2 a b.
Proof.
  unfold Py.max2. destruct (b ?= a) eqn:E; try apply Qle_refl.
  apply Qlt_le_weak, Qgt_alt, E.
Qed.

Lemma max2_ge_r (a b : Q) : b <= Py.max2 a b.
Proof.
  unfold Py.max2. destruct (b ?= a) eqn:E.
  - apply Qeq_alt in E. rewrite E. apply Qle_refl.
  - apply Qlt_le_weak, Qlt_alt, E.
  - apply Qle_refl.
Qed.

(** The running minimum never exceeds its start nor any item seen. *)
Lemma min_from_le_first (rest : list Q) (first : Q) :
  Py.min_from first rest <= first.
Proof.
  revert first. induction rest as [|v rest IH]; intros first; simpl.
  - apply Qle_refl.
  - eapply Qle_trans; [apply IH | apply min2_le_l].
Qed.

Lemma min_from_le_item (rest : list Q) (first v : Q) :
  In v rest -> Py.min_from first rest <= v.
Proof.
  revert first. induction rest as [|u rest IH]; intros first Hin; simpl.
  - destruct Hin.
  - destruct Hin as [-> | Hin].
    + eapply Qle_trans; [apply min_from_le_first | apply min2_le_r].
    + apply IH, Hin.
Qed.

Lemma max_from_ge_first (rest : list Q) (first : Q) :
  first <= Py.max_from first rest.
Proof.
  revert first. induction rest as [|v rest IH]; intros first; simpl.
  - apply Qle_refl.
  - eapply Qle_trans; [apply max2_ge_l | apply IH].
Qed.

Lemma max_from_ge_item (rest : list Q) (first v : Q) :
  In v rest -> v <= Py.max_from first rest.
Proof.
  revert first. induction rest as [|u rest IH]; intros first Hin; simpl.
  - destruct Hin.
  - destruct Hin as [-> | Hin].
    + eapply Qle_trans; [apply max2_ge_r | apply max_from_ge_first].
    + apply IH, Hin.
Qed.

(** When every item equals [c], so do the minimum and the maximum. *)
Lemma min_from_const (c : Q) (rest : list Q) (first : Q) :
  first == c -> (forall v, In v rest -> v == c) ->
  Py.min_from first rest == c.
Proof.
  revert first. induction rest as [|u rest IH]; intros first Hf Hall; simpl.
  - exact Hf.
  - apply IH.
    + unfold Py.min2. destruct (u ?= first); auto. apply Hall. now left.
    + intros v Hv. apply Hall. now right.
Qed.

Lemma max_from_const (c : Q) (rest : list Q) (first : Q) :
  first == c -> (forall v, In v rest -> v == c) ->
  Py.max_from first rest == c.
Proof.
  revert first. induction rest as [|u rest IH]; intros first Hf Hall; simpl.
  - exact Hf.
  - apply IH.
    + unfold Py.max2. destruct (u ?= first); auto. apply Hall. now left.
    + intros v Hv. apply Hall. now right.
Qed.

Lemma truediv_ok (a b : Q) : ~ b == 0 -> Py.truediv a b = Ok (a / b).
Proof.
  intros Hb. unfold Py.truediv.
  destruct (Qeq_bool b 0) eqn:E; [|reflexivity].
  apply Qeq_bool_iff in E. contradiction.
Qed.

Lemma truediv_zero (a b : Q) : b == 0 -> Py.truediv a b = Raise ZeroDivisionError.
Proof.
  intros Hb. unfold Py.truediv.
  apply Qeq_bool_iff in Hb. now rewrite Hb.
Qed.

End MinMax.

(** ** The flattened entity list *)

Lemma in_all_entities (data : dataset) (e : entity.t) :
  In e (all_entities data) <-> entity_of data e.
Proof.
  unfold all_entities, values, entity_of. rewrite in_concat. split.
  - intros (es & Hes & He). apply in_map_iff in Hes.
    destruct Hes as ([c es'] & Heq & Hin). simpl in Heq. subst es'.
    exists c, es. auto.
  - intros (c & es & Hin & He). exists es. split; [|exact He].
    apply in_map_iff. exists (c, es). auto.
Qed.

Lemma all_entities_nil (data : dataset) :
  all_categories_empty data -> all_entities data = [].
Proof.
  intros Hall. destruct (all_entities data) as [|e rest] eqn:E; [reflexivity|].
  assert (He : In e (all_entities data)) by (rewrite E; now left).
  apply in_all_entities in He. destruct He as (c & es & Hin & He).
  rewrite (Hall c es Hin) in He. destruct He.
Qed.

Lemma all_entities_nonempty (data : dataset) :
  nonempty data -> all_entities data <> [].
Proof.
  intros (c & es & e & Hin & He) E.
  assert (H : In e (all_entities data)) by (apply in_all_entities; exists c, es; auto).
  rewrite E in H. destruct H.
Qed.

(** The rectangle of a non-empty collection exists and holds every entity. *)
Lemma bounds_inside (data : dataset) :
  nonempty data ->
  exists b, get_entity_bounds data = Some b /\
            forall e, entity_of data e -> inside b e.
Proof.
  intros Hne. apply all_entities_nonempty in Hne.
  unfold get_entity_bounds.
  destruct (all_entities data) as [|e0 rest] eqn:E; [congruence|].
  eexists. split; [reflexivity|].
  intros e He. apply in_all_entities in He. rewrite E in He.
  unfold inside; simpl.
  destruct He as [<- | He].
  - repeat split;
      first [apply min_from_le_first | apply max_from_ge_first].
  - repeat split;
      first [ apply min_from_le_item; apply in_map; exact He
            | apply max_from_ge_item; apply in_map; exact He ].
Qed.

(** C4. For every non-empty collection [get_entity_bounds] returns a
    rectangle with [min_x <= x <= max_x] and [min_y <= y <= max_y] for
    every entity of every category, hence [min_x <= max_x] and
    [min_y <= max_y]. *)
Theorem get_entity_bounds_contains (data : dataset) :
  nonempty data ->
  exists b,
    get_entity_bounds data = Some b /\
    (forall category entities e,
        In (category, entities) data -> In e entities ->
        bounds.min_x b <= entity.x e <= bounds.max_x b /\
        bounds.min_y b <= entity.y e <= bounds.max_y b) /\
    bounds.min_x b <= bounds.max_x b /\
    bounds.min_y b <= bounds.max_y b.
Proof.
  intros Hne. destruct (bounds_inside data Hne) as (b & Hb & Hin).
  exists b. split; [exact Hb|]. split.
  - intros c es e Hc He. apply Hin. exists c, es. auto.
  - destruct Hne as (c & es & e & Hc & He).
    destruct (Hin e) as [[Hx1 Hx2] [Hy1 Hy2]]; [exists c, es; auto|].
    split; eapply Qle_trans; eauto.
Qed.

Lemma get_entity_bounds_contains_witness :
  exists b,
    get_entity_bounds
      [ ("belts"%string, [ent 3 (-2); ent (1#2) 7]); ("walls"%string, []);
        ("rails"%string, [ent (-4) 0]) ] = Some b /\
    (forall category entities e,
        In (category, entities)
           [ ("belts"%string, [ent 3 (-2); ent (1#2) 7]); ("walls"%string, []);
             ("rails"%string, [ent (-4) 0]) ] ->
        In e entities ->
        bounds.min_x b <= entity.x e <= bounds.max_x b /\
        bounds.min_y b <= entity.y e <= bounds.max_y b) /\
    bounds.min_x b <= bounds.max_x b /\
    bounds.min_y b <= bounds.max_y b.
Proof.
  apply get_entity_bounds_contains.
  exists "belts"%string, [ent 3 (-2); ent (1#2) 7], (ent 3 (-2)).
  simpl. auto.
Defined.

(** ** The layout on a rectangle of positive extent *)

Section Layout.

Variables (data : dataset) (b : bounds.t).
Hypothesis Hbounds : get_entity_bounds data = Some b.

Hypothesis Hw : 0 < bounds.max_x b - bounds.min_x b.
Hypothesis Hh : 0 < bounds.max_y b - bounds.min_y b.

(** The scale is positive on either page. *)
Lemma scale_pos (o : Spec.Orientation) :
  0 < frame.scale (Spec.compute_frame b o).
Proof.
  unfold Spec.compute_frame; cbn [frame.scale].
  apply Q.min_glb_lt; apply Qlt_shift_div_l; try assumption;
    destruct o; unfold Spec.page_width_mm, Spec.page_height_mm, Spec.padding; lra.
Qed.

(** Any orientation string acts as one of the two orientations. *)
Lemma orientation_cases (s : string) :
  exists o, calculate_canvas_and_viewbox_body data s
            = calculate_canvas_and_viewbox_body data (Spec.name o).
Proof.
  unfold calculate_canvas_and_viewbox_body.
  destruct (String.eqb s "landscape") eqn:E.
  - exists Spec.Landscape. reflexivity.
  - exists Spec.Portrait. reflexivity.
Qed.

(** The function reaches its [return] with the specified values. *)
Lemma body_frame (o : Spec.Orientation) :
  calculate_canvas_and_viewbox_body data (Spec.name o)
  = Ok (Spec.compute_frame b o).
Proof.
  pose proof (scale_pos o) as Hs.
  unfold calculate_canvas_and_viewbox_body. rewrite Hbounds.
  cbn [getitem bind].
  set (w := bounds.max_x b - bounds.min_x b) in *.
  set (h := bounds.max_y b - bounds.min_y b) in *.
  assert (Hw0 : ~ w == 0) by lra.
  assert (Hh0 : ~ h == 0) by lra.
  unfold Spec.compute_frame in *. cbn [frame.scale] in Hs. fold w h in Hs |- *.
  destruct o; cbn [Spec.name String.eqb Ascii.eqb Bool.eqb Spec.page_width_mm Spec.page_height_mm] in *;
    unfold Spec.padding in *;
    rewrite !(truediv_ok _ w Hw0), !(truediv_ok _ h Hh0); cbn [bind];
    rewrite min2_spec;
    rewrite !truediv_ok by lra; cbn [bind]; reflexivity.
Qed.

End Layout.

(** Every rectangle of positive extent is the bounds of some collection:
    two entities at opposite corners. *)
Lemma rectangle_realised (b : bounds.t) :
  0 < bounds.max_x b - bounds.min_x b ->
  0 < bounds.max_y b - bounds.min_y b ->
  get_entity_bounds
    [ ("asset"%string,
       [ent (bounds.min_x b) (bounds.min_y b);
        ent (bounds.max_x b) (bounds.max_y b)]) ] = Some b.
Proof.
  destruct b as [x0 x1 y0 y1]; simpl. intros Hx Hy.
  assert (Ex : (x1 ?= x0) = Gt) by (apply Qgt_alt; lra).
  assert (Ey : (y1 ?= y0) = Gt) by (apply Qgt_alt; lra).
  unfold get_entity_bounds, all_entities, Py.min_from, Py.max_from,
    Py.min2, Py.max2; simpl.
  now rewrite Ex, Ey.
Qed.

(** The returned tuple is the projection of the frame. *)
Lemma returned_layout (data : dataset) (orientation : string) (f : frame.t) :
  calculate_canvas_and_viewbox_body data orientation = Ok f ->
  calculate_canvas_and_viewbox data orientation = Ok (returned f).
Proof.
  intros E. unfold calculate_canvas_and_viewbox. now rewrite E.
Qed.

(** C1. On every rectangle of positive width and height (each is the
    bounds of some collection) and for either orientation,
    [calculate_canvas_and_viewbox] returns exactly the page dimensions and
    viewbox of the specified algorithm. *)
Theorem calculate_canvas_and_viewbox_spec (b : bounds.t) (o : Spec.Orientation) :
  0 < bounds.max_x b - bounds.min_x b ->
  0 < bounds.max_y b - bounds.min_y b ->
  (exists data, get_entity_bounds data = Some b) /\
  (forall data, get_entity_bounds data = Some b ->
     calculate_canvas_and_viewbox data (Spec.name o)
     = Ok (Spec.compute_layout b o)).
Proof.
  intros Hw Hh. split.
  - eexists. apply rectangle_realised; assumption.
  - intros data Hb. apply returned_layout, body_frame; assumption.
Qed.

Lemma calculate_canvas_and_viewbox_spec_witness :
  (exists data, get_entity_bounds data = Some (bounds.mk (-3) 5 (1#2) 4)) /\
  (forall data, get_entity_bounds data = Some (bounds.mk (-3) 5 (1#2) 4) ->
     calculate_canvas_and_viewbox data "portrait"
     = Ok (Spec.compute_layout (bounds.mk (-3) 5 (1#2) 4) Spec.Portrait)).
Proof.
  apply (calculate_canvas_and_viewbox_spec (bounds.mk (-3) 5 (1#2) 4) Spec.Portrait);
    reflexivity.
Defined.






(** C9. On a rectangle of positive width and height and for any
    orientation, the function scales both axes by the one factor [scale],
    so the scaled content keeps the aspect ratio:
    [scaled_width / scaled_height == width / height] (exactly, over the
    rationals, hence within any tolerance). *)
Theorem scale_preserves_aspect_ratio
    (data : dataset) (b : bounds.t) (orientation : string) :
  get_entity_bounds data = Some b ->
  0 < bounds.max_x b - bounds.min_x b ->
  0 < bounds.max_y b - bounds.min_y b ->
  exists f,
    calculate_canvas_and_viewbox_body data orientation = Ok f /\
    frame.width f = bounds.max_x b - bounds.min_x b /\
    frame.height f = bounds.max_y b - bounds.min_y b /\
    frame.scaled_width f = frame.width f * frame.scale f /\
    frame.scaled_height f = frame.height f * frame.scale f /\
    frame.scaled_width f / frame.scaled_height f
    == frame.width f / frame.height f.
Proof.
  intros Hb Hw Hh.
  destruct (orientation_cases data orientation) as [o Ho].
  pose proof (body_frame data b Hb Hw Hh o) as Hf. rewrite <- Ho in Hf.
  pose proof (scale_pos b Hw Hh o) as Hs.
  exists (Spec.compute_frame b o). split; [exact Hf|].
  repeat split.
  cbn [Spec.compute_frame frame.scaled_width frame.scaled_height
       frame.width frame.height].
  cbn [Spec.compute_frame frame.scale] in Hs.
  set (s := Qmin _ _) in *. clearbody s.
  field. split; lra.
Qed.

Lemma scale_preserves_aspect_ratio_witness :
  exists f,
    calculate_canvas_and_viewbox_body scenario_data "landscape" = Ok f /\
    frame.width f = 100 - 0 /\
    frame.height f = 50 - 0 /\
    frame.scaled_width f = frame.width f * frame.scale f /\
    frame.scaled_height f = frame.height f * frame.scale f /\
    frame.scaled_width f / frame.scaled_height f
    == frame.width f / frame.height f.
Proof.
  apply (scale_preserves_aspect_ratio scenario_data scenario_bounds "landscape");
    reflexivity.
Defined.

(** C10. Two collections with the same computed bounds get the same page
    dimensions and viewbox for the same orientation: the layout reads the
    collection only through [get_entity_bounds]. *)
Theorem layout_depends_on_bounds_only (d1 d2 : dataset) (orientation : string) :
  get_entity_bounds d1 = get_entity_bounds d2 ->
  calculate_canvas_and_viewbox d1 orientation
  = calculate_canvas_and_viewbox d2 orientation.
Proof.
  intros E.
  unfold calculate_canvas_and_viewbox, calculate_canvas_and_viewbox_body.
  rewrite E. reflexivity.
Qed.

Lemma layout_depends_on_bounds_only_witness :
  calculate_canvas_and_viewbox
    [ ("belts"%string,
       [entity.mk 0 0 [("name", "transport-belt")]; entity.mk 100 50 []]) ]%string
    "landscape"
  = calculate_canvas_and_viewbox
      [ ("walls"%string, [ent 0 50; ent 40 20; ent 7 7]);
        ("electrical"%string, []);
        ("rails"%string, [entity.mk 100 0 [("direction", "4")]]) ]%string
      "landscape".
Proof.
  apply layout_depends_on_bounds_only. reflexivity.
Defined.

(** ** Failure modes *)

(** The bounds of a collection whose entities agree on [x] have no width;
    likewise for [y] and the height. *)
Lemma same_x_no_width (data : dataset) (b : bounds.t) :
  get_entity_bounds data = Some b ->
  (forall e1 e2, entity_of data e1 -> entity_of data e2 ->
                 entity.x e1 == entity.x e2) ->
  bounds.max_x b - bounds.min_x b == 0.
Proof.
  unfold get_entity_bounds. intros Hb Hsame.
  destruct (all_entities data) as [|e0 rest] eqn:E; [discriminate|].
  injection Hb as <-. cbn [bounds.max_x bounds.min_x].
  assert (Hin : forall e, In e (e0 :: rest) -> entity.x e == entity.x e0).
  { intros e He. apply Hsame; apply in_all_entities; rewrite E;
      [exact He | now left]. }
  assert (Hrest : forall v, In v (map entity.x rest) -> v == entity.x e0).
  { intros v Hv. apply in_map_iff in Hv. destruct Hv as (e & <- & He).
    apply Hin. now right. }
  rewrite (max_from_const (entity.x e0)), (min_from_const (entity.x e0));
    try assumption; try apply Qeq_refl.
  ring.
Qed.

Lemma same_y_no_height (data : dataset) (b : bounds.t) :
  get_entity_bounds data = Some b ->
  (forall e1 e2, entity_of data e1 -> entity_of data e2 ->
                 entity.y e1 == entity.y e2) ->
  bounds.max_y b - bounds.min_y b == 0.
Proof.
  unfold get_entity_bounds. intros Hb Hsame.
  destruct (all_entities data) as [|e0 rest] eqn:E; [discriminate|].
  injection Hb as <-. cbn [bounds.max_y bounds.min_y].
  assert (Hin : forall e, In e (e0 :: rest) -> entity.y e == entity.y e0).
  { intros e He. apply Hsame; apply in_all_entities; rewrite E;
      [exact He | now left]. }
  assert (Hrest : forall v, In v (map entity.y rest) -> v == entity.y e0).
  { intros v Hv. apply in_map_iff in Hv. destruct Hv as (e & <- & He).
    apply Hin. now right. }
  rewrite (max_from_const (entity.y e0)), (min_from_const (entity.y e0));
    try assumption; try apply Qeq_refl.
  ring.
Qed.

(** A rectangle without width or without height stops the function at the
    scale computation. *)
Lemma no_extent_raises (data : dataset) (b : bounds.t) (orientation : string) :
  get_entity_bounds data = Some b ->
  bounds.max_x b - bounds.min_x b == 0 \/ bounds.max_y b - bounds.min_y b == 0 ->
  calculate_canvas_and_viewbox_body data orientation = Raise ZeroDivisionError.
Proof.
  intros Hb Hdeg.
  unfold calculate_canvas_and_viewbox_body. rewrite Hb. cbn [getitem bind].
  destruct Hdeg as [Hw | Hh].
  - rewrite (truediv_zero _ _ Hw). reflexivity.
  - rewrite (truediv_zero _ _ Hh).
    unfold Py.truediv at 1.
    destruct (Qeq_bool (bounds.max_x b - bounds.min_x b) 0); reflexivity.
Qed.

(** C3. For a non-empty collection whose entities all share one [x]
    (width zero) or all share one [y] (height zero), the layout raises at
    the division by the zero extent, Python's [ZeroDivisionError], which is
    the failure mode named DegenerateExtent; no viewbox is returned. *)
Theorem degenerate_extent_raises (data : dataset) (orientation : string) :
  nonempty data ->
  (forall e1 e2, entity_of data e1 -> entity_of data e2 ->
                 entity.x e1 == entity.x e2) \/
  (forall e1 e2, entity_of data e1 -> entity_of data e2 ->
                 entity.y e1 == entity.y e2) ->
  calculate_canvas_and_viewbox data orientation = Raise ZeroDivisionError.
Proof.
  intros Hne Hsame.
  destruct (bounds_inside data Hne) as (b & Hb & _).
  unfold calculate_canvas_and_viewbox.
  rewrite (no_extent_raises data b orientation Hb); [reflexivity|].
  destruct Hsame as [Hx | Hy].
  - left. exact (same_x_no_width data b Hb Hx).
  - right. exact (same_y_no_height data b Hb Hy).
Qed.

Lemma degenerate_extent_raises_witness :
  calculate_canvas_and_viewbox
    [ ("walls"%string, [ent 3 0; ent 3 5]); ("belts"%string, [ent (6#2) 9]) ]
    "landscape"
  = Raise ZeroDivisionError.
Proof.
  apply degenerate_extent_raises.
  - exists "walls"%string, [ent 3 0; ent 3 5], (ent 3 0). simpl. auto.
  - left. intros e1 e2 (c1 & es1 & H1 & He1) (c2 & es2 & H2 & He2).
    simpl in H1, H2.
    destruct H1 as [H1 | [H1 | []]]; injection H1 as <- <-;
      destruct H2 as [H2 | [H2 | []]]; injection H2 as <- <-;
      simpl in He1, He2;
      repeat match goal with
             | H : _ \/ _ |- _ => destruct H
             | H : False |- _ => destruct H
             | H : _ = _ |- _ => subst
             end; reflexivity.
Defined.

(** The empty collection: no bounds, and the layout fails on its first
    read of them. *)
Lemma empty_no_bounds (data : dataset) :
  all_categories_empty data -> get_entity_bounds data = None.
Proof.
  intros Hall. unfold get_entity_bounds.
  now rewrite (all_entities_nil data Hall).
Qed.

(** C2 (what the code does). When every category is empty,
    [get_entity_bounds] returns [None]; [create] still calls
    [calculate_canvas_and_viewbox], which subscripts that [None] and
    raises [TypeError]; [create] ends with the same exception and no
    drawing. *)
Theorem empty_collection_raises_TypeError
    {shape : Type} (CirclesTheme DefaultTheme : Theme shape)
    (data : dataset) (orientation template output_file_name : string) :
  all_categories_empty data ->
  get_entity_bounds data = None /\
  calculate_canvas_and_viewbox data orientation = Raise TypeError /\
  create CirclesTheme DefaultTheme data template output_file_name
  = Raise TypeError.
Proof.
  intros Hall. pose proof (empty_no_bounds data Hall) as Hb.
  assert (Hlay : forall o, calculate_canvas_and_viewbox data o = Raise TypeError).
  { intros o. unfold calculate_canvas_and_viewbox,
      calculate_canvas_and_viewbox_body. now rewrite Hb. }
  repeat split; [exact Hb | apply Hlay |].
  unfold create. now rewrite Hlay.
Qed.

Lemma empty_collection_raises_TypeError_witness :
  get_entity_bounds [ ("belts"%string, []); ("walls"%string, []) ] = None /\
  calculate_canvas_and_viewbox [ ("belts"%string, []); ("walls"%string, []) ]
    "landscape" = Raise TypeError /\
  create echo echo [ ("belts"%string, []); ("walls"%string, []) ]
    "default" "output.svg" = Raise TypeError.
Proof.
  apply empty_collection_raises_TypeError.
  intros c es [H | [H | []]]; now injection H as _ <-.
Defined.

(** ** The worked scenario *)

Lemma scenario_frame (data : dataset) :
  get_entity_bounds data = Some scenario_bounds ->
  calculate_canvas_and_viewbox_body data "landscape"
  = Ok (Spec.compute_frame scenario_bounds Spec.Landscape).
Proof.
  intros Hb.
  apply (fun Hw Hh => body_frame data scenario_bounds Hb Hw Hh Spec.Landscape);
    reflexivity.
Qed.

(** C7 as stated fails: on bounds 0..100 by 0..50 in landscape the frame
    has [x_offset == 10], which is not within 1 of 0. *)
Lemma scenario_x_offset_not_zero :
  ~ (exists f,
        calculate_canvas_and_viewbox_body scenario_data "landscape" = Ok f /\
        scenario_values 0 1 f).
Proof.
  intros (f & Hf & Hv).
  rewrite (scenario_frame scenario_data eq_refl) in Hf.
  injection Hf as <-.
  destruct Hv as (_ & _ & _ & _ & _ & _ & _ & _ & Hx & _).
  vm_compute in Hx. apply Hx. reflexivity.
Qed.

(** C7 (amended). For bounds [{min_x:0, max_x:100, min_y:0, max_y:50}] in
    landscape the layout has page 297 by 210, content box 277 by 190,
    [scale = min(277/100, 190/50) = 2.77], [scaled_width = 277],
    [scaled_height = 138.5], [x_offset = (297 - 277)/2 = 10], which is the
    padding, so that [x_offset - padding = 0] and [viewbox_x = 0],
    [y_offset = (210 - 138.5)/2 = 35.75], and a viewbox covering
    [0,100] x [0,50]. *)
Theorem scenario_landscape (data : dataset) :
  get_entity_bounds data = Some scenario_bounds ->
  exists f,
    calculate_canvas_and_viewbox_body data "landscape" = Ok f /\
    calculate_canvas_and_viewbox data "landscape" = Ok (returned f) /\
    scenario_values 10 0 f /\
    frame.x_offset f == (297 - 277) / 2 /\
    frame.x_offset f == 10 /\
    frame.padding_mm f == 10 /\
    frame.x_offset f - frame.padding_mm f == 0 /\
    frame.viewbox_x f == 0.
Proof.
  intros Hb. pose proof (scenario_frame data Hb) as Hf.
  exists (Spec.compute_frame scenario_bounds Spec.Landscape).
  split; [exact Hf|]. split; [exact (returned_layout _ _ _ Hf)|].
  vm_compute.
  repeat match goal with |- _ /\ _ => split end;
    first [reflexivity | discriminate].
Qed.

Lemma scenario_landscape_witness :
  exists f,
    calculate_canvas_and_viewbox_body scenario_data "landscape" = Ok f /\
    calculate_canvas_and_viewbox scenario_data "landscape" = Ok (returned f) /\
    scenario_values 10 0 f /\
    frame.x_offset f == (297 - 277) / 2 /\
    frame.x_offset f == 10 /\
    frame.padding_mm f == 10 /\
    frame.x_offset f - frame.padding_mm f == 0 /\
    frame.viewbox_x f == 0.
Proof.
  apply (scenario_landscape scenario_data). reflexivity.
Defined.

(** The same scenario run in binary64: every value of the amended
    scenario is what the code computes, bit for bit. *)
Lemma scenario_landscape_binary64 :
  exists f,
    Binary64.calculate_canvas_and_viewbox_body Binary64.scenario_data "landscape"
    = Ok f /\
    Binary64.frame.svg_width_mm f = 297%float /\
    Binary64.frame.svg_height_mm f = 210%float /\
    Binary64.frame.content_width_mm f = 277%float /\
    Binary64.frame.content_height_mm f = 190%float /\
    Binary64.frame.scale f = (277 / 100)%float /\
    Binary64.frame.scaled_width f = 277%float /\
    Binary64.frame.scaled_height f = 138.5%float /\
    Binary64.frame.x_offset f = 10%float /\
    Binary64.frame.y_offset f = 35.75%float /\
    Binary64.frame.viewbox_x f = 0%float /\
    Binary64.covers
      (Binary64.frame.svg_width_mm f, Binary64.frame.svg_height_mm f,
       Binary64.frame.viewbox_x f, Binary64.frame.viewbox_y f,
       Binary64.frame.viewbox_width f, Binary64.frame.viewbox_height f)
      (Binary64.bounds.mk 0 100 0 50) = true.
Proof.
  eexists. split; [vm_compute; reflexivity|].
  repeat split; vm_compute; reflexivity.
Qed.

(** ** The grid *)

(** A loop of [group.add] calls appends the mapped items in order. *)
Lemma fold_group_add {shape A : Type} (F : A -> element shape)
    (items : list A) (grp : group shape) :
  fold_left (fun acc a => group_add shape acc (F a)) items grp
  = mk_group (id grp) (elements grp ++ map F items).
Proof.
  revert grp. induction items as [|a items IH]; intros grp; simpl.
  - rewrite app_nil_r. now destruct grp.
  - rewrite IH. unfold group_add; simpl. now rewrite <- app_assoc.
Qed.

Lemma in_integers (lo hi i : Z) :
  In i (Spec.integers lo hi) <-> (lo <= i <= hi)%Z.
Proof.
  unfold Spec.integers. rewrite in_map_iff. split.
  - intros (n & <- & Hn). apply in_seq in Hn. lia.
  - intros Hi. exists (Z.to_nat (i - lo)). split; [lia|].
    apply in_seq. lia.
Qed.

Lemma NoDup_integers (lo hi : Z) : NoDup (Spec.integers lo hi).
Proof.
  unfold Spec.integers.
  generalize (seq_NoDup (Z.to_nat (hi + 1 - lo)) 0).
  generalize (seq 0 (Z.to_nat (hi + 1 - lo))) as l.
  induction l as [|n l IH]; intros Hnd; simpl; constructor.
  - inversion Hnd as [|? ? Hnot _]; subst.
    intros Hin. apply in_map_iff in Hin. destruct Hin as (m & Hm & Hin).
    assert (m = n) by lia. subst m. contradiction.
  - apply IH. now inversion Hnd.
Qed.

Lemma length_integers (lo hi : Z) :
  List.length (Spec.integers lo hi) = Z.to_nat (hi + 1 - lo).
Proof. unfold Spec.integers. now rewrite List.length_map, List.length_seq. Qed.

(** [int] is the floor of a value that is not negative and the ceiling of
    one that is not positive. *)
Lemma int_floor (q : Q) : 0 <= q -> Py.int q = Qfloor q.
Proof.
  destruct q as [n d]. unfold Qle, Py.int, Qfloor; simpl. intros Hn.
  apply Z.quot_div_nonneg; lia.
Qed.

Lemma int_ceiling (q : Q) : q <= 0 -> Py.int q = Qceiling q.
Proof.
  destruct q as [n d]. unfold Qle, Py.int, Qceiling, Qfloor; simpl. intros Hn.
  rewrite <- (Z.opp_involutive n) at 1.
  rewrite Z.quot_opp_l by lia.
  rewrite Z.quot_div_nonneg by lia. reflexivity.
Qed.

Lemma floor_unique (q : Q) (z : Z) :
  inject_Z z <= q -> q < inject_Z (z + 1) -> Qfloor q = z.
Proof.
  intros Hlo Hhi.
  pose proof (Qfloor_le q) as H1. pose proof (Qlt_floor q) as H2.
  assert (A : (z < Qfloor q + 1)%Z)
    by (rewrite Zlt_Qlt; eapply Qle_lt_trans; eauto).
  assert (B : (Qfloor q < z + 1)%Z)
    by (rewrite Zlt_Qlt; eapply Qle_lt_trans; eauto).
  lia.
Qed.

Lemma floor_plus_Z (q : Q) (k : Z) : Qfloor (q + inject_Z k) = (Qfloor q + k)%Z.
Proof.
  pose proof (Qfloor_le q) as H1. pose proof (Qlt_floor q) as H2.
  apply floor_unique.
  - rewrite inject_Z_plus. lra.
  - rewrite !inject_Z_plus in *. lra.
Qed.

Lemma ceiling_plus_Z (q : Q) (k : Z) :
  Qceiling (q + inject_Z k) = (Qceiling q + k)%Z.
Proof.
  unfold Qceiling.
  assert (E : - (q + inject_Z k) == - q + inject_Z (- k))
    by (rewrite inject_Z_opp; ring).
  rewrite E, floor_plus_Z. lia.
Qed.

(** The span of [int] over an integer width that does not cross zero. *)
Lemma int_span (v extent : Q) (n : Z) :
  (0 <= n)%Z -> extent == inject_Z n -> 0 <= v \/ v + extent <= 0 ->
  (Py.int (v + extent) + 1 - Py.int v = n + 1)%Z.
Proof.
  intros Hn He Hside.
  assert (Hn' : 0 <= inject_Z n)
    by (change (inject_Z 0 <= inject_Z n); rewrite <- Zle_Qle; exact Hn).
  destruct Hside as [Hpos | Hneg].
  - rewrite !int_floor by lra.
    rewrite He, floor_plus_Z. lia.
  - rewrite !int_ceiling by lra.
    rewrite He, ceiling_plus_Z. lia.
Qed.

(** What [create_grid] appends. *)
Lemma create_grid_groups {shape : Type} (dwg : drawing shape) (vx vy vw vh : Q) :
  groups (create_grid dwg vx vy vw vh)
  = groups dwg ++
    [grid_of vx vy vw vh
       (Spec.integers (Py.int vx) (Py.int (vx + vw)))
       (Spec.integers (Py.int vy) (Py.int (vy + vh)))].
Proof.
  unfold create_grid, add, grid_of; cbn [groups].
  rewrite !fold_group_add. reflexivity.
Qed.

(** [int] lies between the floor and the ceiling, so the lines reach
    every integer coordinate inside the viewbox. *)
Lemma int_between (q : Q) : (Qfloor q <= Py.int q <= Qceiling q)%Z.
Proof.
  assert (Hfc : (Qfloor q <= Qceiling q)%Z).
  { rewrite Zle_Qle. eapply Qle_trans; [apply Qfloor_le | apply Qle_ceiling]. }
  destruct (Qlt_le_dec q 0) as [Hneg | Hpos].
  - rewrite int_ceiling by lra. lia.
  - rewrite int_floor by assumption. lia.
Qed.

Lemma grid_reaches_viewbox (v extent : Q) (i : Z) :
  v <= inject_Z i <= v + extent ->
  In i (Spec.integers (Py.int v) (Py.int (v + extent))).
Proof.
  intros [Hlo Hhi]. apply in_integers.
  pose proof (int_between v) as [_ Hv].
  pose proof (int_between (v + extent)) as [Hve _].
  apply Qceiling_resp_le in Hlo. rewrite Qceiling_Z in Hlo.
  apply Qfloor_resp_le in Hhi. rewrite Qfloor_Z in Hhi.
  lia.
Qed.

(** C6 as stated fails: on the viewbox [(-1/2, 0, 1, 1)] the vertical
    lines run from [int(-0.5) = 0] to [int(0.5) = 0], not from
    [floor(-0.5) = -1]; there is one vertical line, not [W + 1 = 2]. *)
Lemma create_grid_not_floor :
  ~ grid_as_specified (blank unit)
      (create_grid (blank unit) (-1 # 2) 0 1 1) (-1 # 2) 0 1 1 /\
  (exists grid,
      groups (create_grid (blank unit) (-1 # 2) 0 1 1) = [grid] /\
      List.length (filter is_vertical (segments (elements grid))) = 1%nat).
Proof.
  split.
  - intros (grid & Hg & Hs).
    vm_compute in Hg. injection Hg as <-.
    vm_compute in Hs. discriminate Hs.
  - eexists. split; [vm_compute; reflexivity|]. vm_compute. reflexivity.
Qed.

(** C6 (amended). [create_grid] appends one group ["grid"] holding exactly
    one vertical line per integer from [int(viewbox_x)] to
    [int(viewbox_x + viewbox_width)] inclusive, each from [viewbox_y] to
    [viewbox_y + viewbox_height], then one horizontal line per integer from
    [int(viewbox_y)] to [int(viewbox_y + viewbox_height)] inclusive, each
    across the full width; [int] truncates toward zero, so the ends are
    the floors when the viewbox has no negative coordinate.  For an integer
    width [W >= 0] and height [H >= 0] whose extent does not cross zero on
    either axis there are exactly [W + 1] vertical and [H + 1] horizontal
    lines. *)
Theorem create_grid_lines {shape : Type} (dwg : drawing shape) (vx vy vw vh : Q) :
  let xs := Spec.integers (Py.int vx) (Py.int (vx + vw)) in
  let ys := Spec.integers (Py.int vy) (Py.int (vy + vh)) in
  groups (create_grid dwg vx vy vw vh)
  = groups dwg ++ [grid_of vx vy vw vh xs ys] /\
  (forall i, In i xs <-> (Py.int vx <= i <= Py.int (vx + vw))%Z) /\
  (forall j, In j ys <-> (Py.int vy <= j <= Py.int (vy + vh))%Z) /\
  NoDup xs /\ NoDup ys /\
  (0 <= vx -> 0 <= vx + vw -> 0 <= vy -> 0 <= vy + vh ->
   grid_as_specified dwg (create_grid dwg vx vy vw vh) vx vy vw vh) /\
  (forall W H : Z,
      (0 <= W)%Z -> (0 <= H)%Z -> vw == inject_Z W -> vh == inject_Z H ->
      0 <= vx \/ vx + vw <= 0 -> 0 <= vy \/ vy + vh <= 0 ->
      List.length xs = Z.to_nat (W + 1) /\ List.length ys = Z.to_nat (H + 1)).
Proof.
  intros xs ys. subst xs ys.
  split; [apply create_grid_groups|].
  split; [intros i; apply in_integers|].
  split; [intros j; apply in_integers|].
  split; [apply NoDup_integers|].
  split; [apply NoDup_integers|].
  split.
  - intros Hx0 Hx1 Hy0 Hy1. eexists. split; [apply create_grid_groups|].
    unfold grid_of, Spec.vertical_lines, Spec.horizontal_lines; cbn [elements].
    rewrite !int_floor by assumption.
    generalize (Spec.integers (Qfloor vx) (Qfloor (vx + vw))) as xs.
    generalize (Spec.integers (Qfloor vy) (Qfloor (vy + vh))) as ys.
    intros ys xs. induction xs as [|i xs IH]; simpl.
    + induction ys as [|j ys IH]; simpl; [reflexivity | now rewrite IH].
    + now rewrite IH.
  - intros W H HW HH Ew Eh Hx Hy.
    rewrite !length_integers.
    rewrite (int_span vx vw W HW Ew Hx), (int_span vy vh H HH Eh Hy).
    split; reflexivity.
Qed.

Lemma create_grid_lines_witness :
  grid_as_specified (blank unit)
    (create_grid (blank unit) (1 # 2) (7 # 4) 3 2) (1 # 2) (7 # 4) 3 2 /\
  List.length (Spec.integers (Py.int (1 # 2)) (Py.int ((1 # 2) + 3))) = 4%nat /\
  List.length (Spec.integers (Py.int (-9 # 2)) (Py.int ((-9 # 2) + 2))) = 3%nat.
Proof.
  pose proof (create_grid_lines (blank unit) (1 # 2) (-9 # 2) 3 2)
    as (_ & _ & _ & _ & _ & _ & Hcount).
  pose proof (create_grid_lines (blank unit) (1 # 2) (7 # 4) 3 2)
    as (_ & _ & _ & _ & _ & Hfloor & _).
  split.
  - apply Hfloor; vm_compute; discriminate.
  - apply (Hcount 3%Z 2%Z).
    + lia.
    + lia.
    + reflexivity.
    + reflexivity.
    + left. vm_compute; discriminate.
    + right. vm_compute; discriminate.
Defined.

(** ** The groups of a drawing *)

Section Groups.

Context {shape : Type}.
Variable data : dataset.

Lemma add_category_groups (dwg : drawing shape) (item : string * (entity.t -> shape)) :
  groups (add_category data dwg item) = groups dwg ++ contribution data item.
Proof.
  destruct item as [c r]. unfold add_category, contribution; cbn [fst snd].
  rewrite fold_group_add.
  destruct (data_get data c) as [|e es].
  - now rewrite app_nil_r.
  - reflexivity.
Qed.

Lemma loop_groups (items : list (string * (entity.t -> shape)))
    (dwg : drawing shape) :
  groups (fold_left (add_category data) items dwg) = groups dwg ++ flat_map (contribution data) items.
Proof.
  revert dwg. induction items as [|item items IH]; intros dwg; simpl.
  - now rewrite app_nil_r.
  - rewrite IH, add_category_groups. now rewrite <- app_assoc.
Qed.

Lemma contribution_ids (items : list (string * (entity.t -> shape))) :
  map id (flat_map (contribution data) items)
  = filter (has_entities data) (map fst items).
Proof.
  induction items as [|[c r] items IH]; simpl; [reflexivity|].
  rewrite map_app, IH. unfold contribution, has_entities; cbn [fst snd].
  destruct (data_get data c); reflexivity.
Qed.

Lemma contribution_elements (items : list (string * (entity.t -> shape)))
    (grp : group shape) :
  In grp (flat_map (contribution data) items) ->
  exists render,
    In (id grp, render) items /\
    elements grp = map (fun e => Rendered (render e)) (data_get data (id grp)).
Proof.
  intros Hin. apply in_flat_map in Hin. destruct Hin as ([c r] & Hitem & Hgrp).
  unfold contribution in Hgrp; cbn [fst snd] in Hgrp.
  destruct (data_get data c) as [|e es] eqn:E; [destruct Hgrp|].
  destruct Hgrp as [<- | []]. cbn [id elements].
  exists r. split; [exact Hitem | now rewrite E].
Qed.

(** Once the layout has returned, [create] returns a drawing whose
    groups are in order. *)
Lemma create_groups (CirclesTheme DefaultTheme : Theme shape)
    (template output_file_name : string) (lay : layout) :
  calculate_canvas_and_viewbox data "landscape" = Ok lay ->
  exists dwg,
    create CirclesTheme DefaultTheme data template output_file_name = Ok dwg /\
    groups_in_order (chosen CirclesTheme DefaultTheme template) data dwg.
Proof.
  intros Hlay. unfold create. rewrite Hlay. cbn [bind].
  destruct lay as [[[[[pw ph] vx] vy] vw] vh].
  fold (chosen CirclesTheme DefaultTheme template).
  set (theme := chosen CirclesTheme DefaultTheme template).
  eexists. split; [reflexivity|].
  unfold groups_in_order.
  rewrite loop_groups, create_grid_groups. cbn [groups app].
  eexists _, _. split; [reflexivity|].
  split; [reflexivity|]. split.
  - apply contribution_ids.
  - apply contribution_elements.
Qed.

End Groups.

(** C8 as stated ("for every input") fails: on a single belt the layout
    raises at the zero extent, so [create] emits neither the grid group nor
    a group for ["belts"], a category that has an entity. *)
Lemma create_single_entity_no_groups :
  ~ (exists dwg,
        create echo echo [ ("belts"%string, [ent 1 1]) ] "default" "output.svg"
        = Ok dwg /\
        groups_in_order echo [ ("belts"%string, [ent 1 1]) ] dwg).
Proof.
  intros (dwg & Hdwg & _). vm_compute in Hdwg. discriminate Hdwg.
Qed.

(** C8 (amended). For every input whose entities span a positive width
    and height, [create] returns a drawing whose first group is the grid,
    followed by one group per category in the order belts, walls,
    splitters, asset, spaceship, rails, a category's group being present
    exactly when the category has an entity, and each group holding the
    theme's rendering of its entities in sequence order. *)
Theorem create_group_order {shape : Type}
    (CirclesTheme DefaultTheme : Theme shape) (data : dataset) (b : bounds.t)
    (template output_file_name : string) :
  get_entity_bounds data = Some b ->
  0 < bounds.max_x b - bounds.min_x b ->
  0 < bounds.max_y b - bounds.min_y b ->
  exists dwg,
    create CirclesTheme DefaultTheme data template output_file_name = Ok dwg /\
    groups_in_order (chosen CirclesTheme DefaultTheme template) data dwg.
Proof.
  intros Hb Hw Hh.
  pose proof (body_frame data b Hb Hw Hh Spec.Landscape) as Hf.
  apply returned_layout in Hf.
  exact (create_groups data CirclesTheme DefaultTheme template output_file_name
           _ Hf).
Qed.

Lemma create_group_order_witness :
  exists dwg,
    create echo echo
      [ ("rails"%string, [ent 5 5; ent 2 3]); ("walls"%string, []);
        ("belts"%string, [ent 0 0; ent 100 50]) ]
      "circles" "output.svg" = Ok dwg /\
    groups_in_order (chosen echo echo "circles")
      [ ("rails"%string, [ent 5 5; ent 2 3]); ("walls"%string, []);
        ("belts"%string, [ent 0 0; ent 100 50]) ] dwg.
Proof.
  apply (create_group_order echo echo _ scenario_bounds); reflexivity.
Defined.


(** ** The layout respects numeric equality of the bounds *)

Lemma bind_same {A B : Type} (R : A -> A -> Prop) (S : B -> B -> Prop)
    (m m' : result A) (k k' : A -> result B) :
  same_result R m m' ->
  (forall a a', R a a' -> same_result S (k a) (k' a')) ->
  same_result S (bind m k) (bind m' k').
Proof.
  destruct m, m'; simpl; intros Hm Hk; try contradiction; auto.
Qed.

Lemma truediv_same (a a' b b' : Q) :
  a == a' -> b == b' -> same_result Qeq (Py.truediv a b) (Py.truediv a' b').
Proof.
  intros Ha Hb. unfold Py.truediv.
  destruct (Qeq_bool b 0) eqn:E, (Qeq_bool b' 0) eqn:E'; simpl.
  - reflexivity.
  - apply Qeq_bool_iff in E. apply Qeq_bool_neq in E'. apply E'.
    now rewrite <- Hb.
  - apply Qeq_bool_iff in E'. apply Qeq_bool_neq in E. apply E.
    now rewrite Hb.
  - now rewrite Ha, Hb.
Qed.

Lemma min2_same (a a' b b' : Q) :
  a == a' -> b == b' -> Py.min2 a b == Py.min2 a' b'.
Proof. intros Ha Hb. rewrite !min2_spec. now rewrite Ha, Hb. Qed.

Lemma layout_same (d1 d2 : dataset) (b1 b2 : bounds.t) (orientation : string) :
  get_entity_bounds d1 = Some b1 ->
  get_entity_bounds d2 = Some b2 ->
  same_bounds b1 b2 ->
  same_result same_layout
    (calculate_canvas_and_viewbox d1 orientation)
    (calculate_canvas_and_viewbox d2 orientation).
Proof.
  intros H1 H2 (Ex0 & Ex1 & Ey0 & Ey1).
  unfold calculate_canvas_and_viewbox.
  apply bind_same
    with (R := fun f f' => same_layout (returned f) (returned f'));
    [|intros f f' Hf; exact Hf].
  unfold calculate_canvas_and_viewbox_body. rewrite H1, H2.
  cbn [getitem bind].
  assert (Ew : bounds.max_x b1 - bounds.min_x b1
               == bounds.max_x b2 - bounds.min_x b2) by lra.
  assert (Eh : bounds.max_y b1 - bounds.min_y b1
               == bounds.max_y b2 - bounds.min_y b2) by lra.
  apply bind_same with (R := Qeq);
    [apply truediv_same; [reflexivity | exact Ew] | intros rw rw' Erw].
  apply bind_same with (R := Qeq);
    [apply truediv_same; [reflexivity | exact Eh] | intros rh rh' Erh].
  pose proof (min2_same rw rw' rh rh' Erw Erh) as Es.
  apply bind_same with (R := Qeq);
    [apply truediv_same; [reflexivity | exact Es] | intros vw vw' Evw].
  apply bind_same with (R := Qeq);
    [apply truediv_same; [reflexivity | exact Es] | intros vh vh' Evh].
  apply bind_same with (R := Qeq);
    [apply truediv_same; [now rewrite Ew, Es | exact Es] | intros sx sx' Esx].
  apply bind_same with (R := Qeq);
    [apply truediv_same; [now rewrite Eh, Es | exact Es] | intros sy sy' Esy].
  simpl. repeat split; try reflexivity; try assumption; lra.
Qed.

(** * Further properties of the module *)

(** ** The bounds are tight and depend on the set of entities only *)

Lemma min2_cases (a b : Q) : Py.min2 a b = a \/ Py.min2 a b = b.
Proof. unfold Py.min2. destruct (b ?= a); auto. Qed.

Lemma max2_cases (a b : Q) : Py.max2 a b = a \/ Py.max2 a b = b.
Proof. unfold Py.max2. destruct (b ?= a); auto. Qed.

(** The running minimum and maximum are items of the iterable. *)
Lemma min_from_attained (rest : list Q) (first : Q) :
  In (Py.min_from first rest) (first :: rest).
Proof.
  revert first. induction rest as [|v rest IH]; intros first.
  - now left.
  - change (Py.min_from first (v :: rest))
      with (Py.min_from (Py.min2 first v) rest).
    destruct (IH (Py.min2 first v)) as [H | H].
    + rewrite <- H. destruct (min2_cases first v) as [-> | ->];
        [now left | right; now left].
    + right; now right.
Qed.

Lemma max_from_attained (rest : list Q) (first : Q) :
  In (Py.max_from first rest) (first :: rest).
Proof.
  revert first. induction rest as [|v rest IH]; intros first.
  - now left.
  - change (Py.max_from first (v :: rest))
      with (Py.max_from (Py.max2 first v) rest).
    destruct (IH (Py.max2 first v)) as [H | H].
    + rewrite <- H. destruct (max2_cases first v) as [-> | ->];
        [now left | right; now left].
    + right; now right.
Qed.

(** Each side of the rectangle passes through an entity. *)
Lemma bounds_attained (data : dataset) (b : bounds.t) :
  get_entity_bounds data = Some b ->
  (exists e, entity_of data e /\ entity.x e = bounds.min_x b) /\
  (exists e, entity_of data e /\ entity.x e = bounds.max_x b) /\
  (exists e, entity_of data e /\ entity.y e = bounds.min_y b) /\
  (exists e, entity_of data e /\ entity.y e = bounds.max_y b).
Proof.
  unfold get_entity_bounds. intros Hb.
  destruct (all_entities data) as [|e0 rest] eqn:E; [discriminate|].
  injection Hb as <-. cbn [bounds.min_x bounds.max_x bounds.min_y bounds.max_y].
  assert (Hin : forall (f : entity.t -> Q) (v : Q),
             In v (f e0 :: map f rest) ->
             exists e, entity_of data e /\ f e = v).
  { intros f v Hv. change (f e0 :: map f rest) with (map f (e0 :: rest)) in Hv.
    apply in_map_iff in Hv. destruct Hv as (e & He & Hine).
    exists e. split; [|exact He]. apply in_all_entities. now rewrite E. }
  repeat split; apply Hin;
    first [apply min_from_attained | apply max_from_attained].
Qed.

(** X1. The rectangle of [get_entity_bounds] is the smallest one: each of
    its four sides is the coordinate of some entity of the collection. *)
Theorem get_entity_bounds_tight (data : dataset) (b : bounds.t) :
  get_entity_bounds data = Some b ->
  (exists e, entity_of data e /\ entity.x e = bounds.min_x b) /\
  (exists e, entity_of data e /\ entity.x e = bounds.max_x b) /\
  (exists e, entity_of data e /\ entity.y e = bounds.min_y b) /\
  (exists e, entity_of data e /\ entity.y e = bounds.max_y b).
Proof. exact (bounds_attained data b). Qed.

Lemma get_entity_bounds_tight_witness :
  (exists e, entity_of scenario_data e /\ entity.x e = 0) /\
  (exists e, entity_of scenario_data e /\ entity.x e = 100) /\
  (exists e, entity_of scenario_data e /\ entity.y e = 0) /\
  (exists e, entity_of scenario_data e /\ entity.y e = 50).
Proof.
  apply (get_entity_bounds_tight scenario_data scenario_bounds). reflexivity.
Defined.

(** The bounds exist exactly when the collection has an entity. *)
Lemma bounds_none (data : dataset) :
  get_entity_bounds data = None <-> all_entities data = [].
Proof.
  unfold get_entity_bounds.
  destruct (all_entities data); split; intros H; try reflexivity; discriminate.
Qed.

Lemma bounds_some_inside (data : dataset) (b : bounds.t) :
  get_entity_bounds data = Some b -> forall e, entity_of data e -> inside b e.
Proof.
  intros Hb e He.
  assert (Hne : nonempty data).
  { destruct He as (c & es & Hc & Hin). exists c, es, e. auto. }
  destruct (bounds_inside data Hne) as (b' & Hb' & Hin).
  rewrite Hb in Hb'. injection Hb' as <-. now apply Hin.
Qed.

Lemma same_entities_bounds (d1 d2 : dataset) :
  same_entities d1 d2 ->
  same_optional_bounds (get_entity_bounds d1) (get_entity_bounds d2).
Proof.
  intros Hsame.
  destruct (get_entity_bounds d1) as [b1|] eqn:E1,
           (get_entity_bounds d2) as [b2|] eqn:E2; simpl.
  - pose proof (bounds_attained d1 b1 E1) as (A1 & A2 & A3 & A4).
    pose proof (bounds_attained d2 b2 E2) as (B1 & B2 & B3 & B4).
    pose proof (bounds_some_inside d1 b1 E1) as I1.
    pose proof (bounds_some_inside d2 b2 E2) as I2.
    unfold same_bounds.
    repeat split; apply Qle_antisym;
      match goal with
      | |- bounds.min_x b1 <= bounds.min_x b2 =>
          destruct B1 as (e & He & <-); apply Hsame in He; apply (I1 e He)
      | |- bounds.min_x b2 <= bounds.min_x b1 =>
          destruct A1 as (e & He & <-); apply Hsame in He; apply (I2 e He)
      | |- bounds.max_x b1 <= bounds.max_x b2 =>
          destruct A2 as (e & He & <-); apply Hsame in He; apply (I2 e He)
      | |- bounds.max_x b2 <= bounds.max_x b1 =>
          destruct B2 as (e & He & <-); apply Hsame in He; apply (I1 e He)
      | |- bounds.min_y b1 <= bounds.min_y b2 =>
          destruct B3 as (e & He & <-); apply Hsame in He; apply (I1 e He)
      | |- bounds.min_y b2 <= bounds.min_y b1 =>
          destruct A3 as (e & He & <-); apply Hsame in He; apply (I2 e He)
      | |- bounds.max_y b1 <= bounds.max_y b2 =>
          destruct A4 as (e & He & <-); apply Hsame in He; apply (I2 e He)
      | |- bounds.max_y b2 <= bounds.max_y b1 =>
          destruct B4 as (e & He & <-); apply Hsame in He; apply (I1 e He)
      end.
  - destruct (bounds_attained d1 b1 E1) as ((e & He & _) & _).
    apply Hsame, in_all_entities in He.
    apply bounds_none in E2. rewrite E2 in He. destruct He.
  - destruct (bounds_attained d2 b2 E2) as ((e & He & _) & _).
    apply Hsame, in_all_entities in He.
    apply bounds_none in E1. rewrite E1 in He. destruct He.
  - exact I.
Qed.

(** X2. The bounds, and with them the layout, depend only on which
    entities the collection holds: collections with the same entities, in
    whatever categories, order and multiplicity, have bounds that are both
    absent or equal as numbers, and layouts that raise the same exception
    or return tuples equal as numbers. *)
Theorem layout_same_entities (d1 d2 : dataset) (orientation : string) :
  same_entities d1 d2 ->
  same_optional_bounds (get_entity_bounds d1) (get_entity_bounds d2) /\
  same_result same_layout
    (calculate_canvas_and_viewbox d1 orientation)
    (calculate_canvas_and_viewbox d2 orientation).
Proof.
  intros Hsame. pose proof (same_entities_bounds d1 d2 Hsame) as Hb.
  split; [exact Hb|].
  destruct (get_entity_bounds d1) as [b1|] eqn:E1,
           (get_entity_bounds d2) as [b2|] eqn:E2; simpl in Hb;
    try contradiction.
  - exact (layout_same d1 d2 b1 b2 orientation E1 E2 Hb).
  - unfold calculate_canvas_and_viewbox, calculate_canvas_and_viewbox_body.
    rewrite E1, E2. reflexivity.
Qed.

Lemma layout_same_entities_witness :
  same_optional_bounds
    (get_entity_bounds
       [ ("belts"%string, [ent 0 0; ent 4 1]); ("rails"%string, [ent 2 8]) ])
    (get_entity_bounds
       [ ("walls"%string, [ent 2 8; ent 4 1; ent 2 8]);
         ("asset"%string, [ent 0 0]) ]) /\
  same_result same_layout
    (calculate_canvas_and_viewbox
       [ ("belts"%string, [ent 0 0; ent 4 1]); ("rails"%string, [ent 2 8]) ]
       "portrait")
    (calculate_canvas_and_viewbox
       [ ("walls"%string, [ent 2 8; ent 4 1; ent 2 8]);
         ("asset"%string, [ent 0 0]) ]
       "portrait").
Proof.
  apply (layout_same_entities
           [ ("belts"%string, [ent 0 0; ent 4 1]); ("rails"%string, [ent 2 8]) ]
           [ ("walls"%string, [ent 2 8; ent 4 1; ent 2 8]);
             ("asset"%string, [ent 0 0]) ] "portrait").
  intros e; split; intros (c & es & Hc & He); simpl in Hc;
      repeat match goal with
             | H : _ \/ _ |- _ => destruct H
             | H : False |- _ => destruct H
             | H : (_, _) = (_, _) |- _ => injection H as <- <-
             end; simpl in He;
      repeat match goal with
             | H : _ \/ _ |- _ => destruct H
             | H : False |- _ => destruct H
             end; subst e;
      first
        [ exists "belts"%string, [ent 0 0; ent 4 1]; simpl; now auto
        | exists "rails"%string, [ent 2 8]; simpl; now auto
        | exists "walls"%string, [ent 2 8; ent 4 1; ent 2 8]; simpl; now auto
        | exists "asset"%string, [ent 0 0]; simpl; now auto ].
Defined.

(** ** When the layout returns *)

Lemma bounds_ordered (data : dataset) (b : bounds.t) :
  get_entity_bounds data = Some b ->
  bounds.min_x b <= bounds.max_x b /\ bounds.min_y b <= bounds.max_y b.
Proof.
  intros Hb.
  destruct (bounds_attained data b Hb) as ((e & He & _) & _).
  destruct (bounds_some_inside data b Hb e He) as [[? ?] [? ?]].
  split; eapply Qle_trans; eauto.
Qed.

Lemma no_bounds_raises (data : dataset) (orientation : string) :
  get_entity_bounds data = None ->
  calculate_canvas_and_viewbox data orientation = Raise TypeError.
Proof.
  intros Hb.
  unfold calculate_canvas_and_viewbox, calculate_canvas_and_viewbox_body.
  now rewrite Hb.
Qed.

Lemma name_orientation_of (data : dataset) (orientation : string) :
  calculate_canvas_and_viewbox_body data orientation
  = calculate_canvas_and_viewbox_body data
      (Spec.name (orientation_of orientation)).
Proof.
  unfold calculate_canvas_and_viewbox_body, orientation_of.
  destruct (String.eqb orientation "landscape"); reflexivity.
Qed.

(** The frame reached for any orientation string. *)
Lemma body_frame_of (data : dataset) (b : bounds.t) (orientation : string) :
  get_entity_bounds data = Some b ->
  0 < bounds.max_x b - bounds.min_x b ->
  0 < bounds.max_y b - bounds.min_y b ->
  calculate_canvas_and_viewbox_body data orientation
  = Ok (Spec.compute_frame b (orientation_of orientation)).
Proof.
  intros Hb Hw Hh. rewrite name_orientation_of.
  now apply body_frame.
Qed.

(** The three ways a call ends. *)
Lemma layout_cases (data : dataset) (orientation : string) :
  (get_entity_bounds data = None /\
   calculate_canvas_and_viewbox data orientation = Raise TypeError) \/
  (exists b, get_entity_bounds data = Some b /\
             (bounds.max_x b - bounds.min_x b == 0 \/
              bounds.max_y b - bounds.min_y b == 0) /\
             calculate_canvas_and_viewbox data orientation
             = Raise ZeroDivisionError) \/
  (exists b, get_entity_bounds data = Some b /\
             0 < bounds.max_x b - bounds.min_x b /\
             0 < bounds.max_y b - bounds.min_y b /\
             calculate_canvas_and_viewbox data orientation
             = Ok (returned (Spec.compute_frame b (orientation_of orientation)))).
Proof.
  destruct (get_entity_bounds data) as [b|] eqn:Hb.
  - destruct (bounds_ordered data b Hb) as [Hx Hy].
    destruct (Qeq_dec (bounds.max_x b - bounds.min_x b) 0) as [Ew | Nw];
      [| destruct (Qeq_dec (bounds.max_y b - bounds.min_y b) 0) as [Eh | Nh]].
    + right; left. exists b. repeat split; auto.
      unfold calculate_canvas_and_viewbox.
      rewrite (no_extent_raises data b orientation Hb); auto.
    + right; left. exists b. repeat split; auto.
      unfold calculate_canvas_and_viewbox.
      rewrite (no_extent_raises data b orientation Hb); auto.
    + right; right. exists b.
      assert (Hw : 0 < bounds.max_x b - bounds.min_x b) by lra.
      assert (Hh : 0 < bounds.max_y b - bounds.min_y b) by lra.
      repeat split; auto.
      apply returned_layout, body_frame_of; assumption.
  - left. split; [reflexivity|]. now apply no_bounds_raises.
Qed.

(** ** Transposing the blueprint *)

Lemma all_entities_map (f : entity.t -> entity.t) (data : dataset) :
  all_entities (map_entities f data) = map f (all_entities data).
Proof.
  unfold all_entities, values, map_entities.
  rewrite concat_map, !map_map. reflexivity.
Qed.

(** The bounds of the transposed blueprint are the transposed bounds. *)
Lemma bounds_transposed (data : dataset) :
  get_entity_bounds (map_entities transpose data)
  = match get_entity_bounds data with
    | Some b => Some (bounds.mk (bounds.min_y b) (bounds.max_y b)
                                (bounds.min_x b) (bounds.max_x b))
    | None => None
    end.
Proof.
  unfold get_entity_bounds. rewrite all_entities_map.
  destruct (all_entities data) as [|e rest]; [reflexivity|].
  cbn [map]. rewrite !map_map. reflexivity.
Qed.

Lemma frame_transposed (b : bounds.t) (o : Spec.Orientation) :
  0 < bounds.max_x b - bounds.min_x b ->
  0 < bounds.max_y b - bounds.min_y b ->
  transposed_layout
    (returned (Spec.compute_frame b o))
    (returned
       (Spec.compute_frame
          (bounds.mk (bounds.min_y b) (bounds.max_y b)
                     (bounds.min_x b) (bounds.max_x b))
          (other_orientation o))).
Proof.
  intros Hw Hh.
  pose proof (scale_pos b Hw Hh o) as Hs.
  unfold transposed_layout, returned, Spec.compute_frame in *.
  cbn [frame.scale frame.svg_width_mm frame.svg_height_mm frame.viewbox_x
       frame.viewbox_y frame.viewbox_width frame.viewbox_height
       bounds.min_x bounds.max_x bounds.min_y bounds.max_y] in *.
  assert (EW : Spec.page_width_mm (other_orientation o) = Spec.page_height_mm o)
    by (destruct o; reflexivity).
  assert (EH : Spec.page_height_mm (other_orientation o) = Spec.page_width_mm o)
    by (destruct o; reflexivity).
  rewrite EW, EH.
  set (w := bounds.max_x b - bounds.min_x b) in *.
  set (h := bounds.max_y b - bounds.min_y b) in *.
  set (cw := Spec.page_width_mm o - 2 * Spec.padding) in *.
  set (ch := Spec.page_height_mm o - 2 * Spec.padding) in *.
  assert (Es : Qmin (ch / h) (cw / w) == Qmin (cw / w) (ch / h))
    by apply Q.min_comm.
  set (s := Qmin (cw / w) (ch / h)) in *.
  set (s' := Qmin (ch / h) (cw / w)) in *.
  clearbody s s' w h cw ch.
  repeat split; try reflexivity; rewrite Es; reflexivity.
Qed.

(** X9. The two axes are treated alike: the layout of the transposed
    blueprint on the other orientation is the transposed layout (page
    sides, viewbox origin and viewbox extent exchanged), and a call that
    raises still raises the same exception. *)
Theorem layout_of_transpose (data : dataset) (o : Spec.Orientation) :
  same_result transposed_layout
    (calculate_canvas_and_viewbox data (Spec.name o))
    (calculate_canvas_and_viewbox (map_entities transpose data)
       (Spec.name (other_orientation o))).
Proof.
  pose proof (bounds_transposed data) as Hb.
  destruct (layout_cases data (Spec.name o))
    as [[E Hr] | [(b & E & Hd & Hr) | (b & E & Hw & Hh & Hr)]];
    rewrite E in Hb; rewrite Hr.
  - rewrite (no_bounds_raises _ _ Hb). reflexivity.
  - unfold calculate_canvas_and_viewbox.
    rewrite (no_extent_raises _ _ _ Hb); [reflexivity|].
    cbn [bounds.min_x bounds.max_x bounds.min_y bounds.max_y]. tauto.
  - rewrite (returned_layout _ _ _
               (body_frame _ _ Hb Hh Hw (other_orientation o))).
    assert (Eo : orientation_of (Spec.name o) = o) by (destruct o; reflexivity).
    rewrite Eo. now apply frame_transposed.
Qed.

(** ** The grid stays at the viewbox *)

Lemma integers_near (v extent : Q) (i : Z) :
  In i (Spec.integers (Py.int v) (Py.int (v + extent))) ->
  v - 1 < inject_Z i /\ inject_Z i < v + extent + 1.
Proof.
  intros Hin. apply in_integers in Hin. destruct Hin as [Hlo Hhi].
  pose proof (int_between v) as [Hv _].
  pose proof (int_between (v + extent)) as [_ Hve].
  pose proof (Qlt_floor v) as Hf.
  pose proof (Qceiling_lt (v + extent)) as Hc.
  assert (A : inject_Z (Qfloor v) <= inject_Z i) by (rewrite <- Zle_Qle; lia).
  assert (B : inject_Z i <= inject_Z (Qceiling (v + extent)))
    by (rewrite <- Zle_Qle; lia).
  rewrite inject_Z_plus in Hf.
  unfold Z.sub in Hc. rewrite inject_Z_plus in Hc.
  rewrite inject_Z_opp in Hc.
  change (inject_Z 1) with 1 in Hf, Hc.
  split; lra.
Qed.

(** X10. The lines [create_grid] adds reach every integer coordinate
    inside the viewbox and none that is a full unit or more outside it, on
    both axes. *)
Theorem grid_hugs_viewbox {shape : Type} (dwg : drawing shape) (vx vy vw vh : Q) :
  exists xs ys,
    groups (create_grid dwg vx vy vw vh)
    = groups dwg ++ [grid_of vx vy vw vh xs ys] /\
    (forall i, vx <= inject_Z i <= vx + vw -> In i xs) /\
    (forall i, In i xs -> vx - 1 < inject_Z i < vx + vw + 1) /\
    (forall j, vy <= inject_Z j <= vy + vh -> In j ys) /\
    (forall j, In j ys -> vy - 1 < inject_Z j < vy + vh + 1).
Proof.
  exists (Spec.integers (Py.int vx) (Py.int (vx + vw))),
         (Spec.integers (Py.int vy) (Py.int (vy + vh))).
  split; [apply create_grid_groups|].
  split; [intros i; apply grid_reaches_viewbox|].
  split; [intros i; apply integers_near|].
  split; [intros j; apply grid_reaches_viewbox|].
  intros j; apply integers_near.
Qed.

(** ** What [create] reads of the data *)

Lemma data_get_missing (data : dataset) (key : string) :
  ~ In key (map fst data) -> data_get data key = [].
Proof.
  induction data as [|[k es] data IH]; simpl; intros Hnot; [reflexivity|].
  destruct (String.eqb k key) eqn:E.
  - apply String.eqb_eq in E. exfalso. apply Hnot. now left.
  - apply IH. intros Hin. apply Hnot. now right.
Qed.

Lemma data_get_without_empty (pre post : dataset) (c key : string) :
  ~ In c (map fst (pre ++ post)) ->
  data_get (pre ++ (c, []) :: post) key = data_get (pre ++ post) key.
Proof.
  intros Hnot. induction pre as [|[k es] pre IH]; simpl in *.
  - destruct (String.eqb c key) eqn:E; [|reflexivity].
    apply String.eqb_eq in E. subst key.
    symmetry. now apply data_get_missing.
  - destruct (String.eqb k key); [reflexivity|].
    apply IH. intros Hin. apply Hnot. now right.
Qed.

Lemma all_entities_without_empty (pre post : dataset) (c : string) :
  all_entities (pre ++ (c, []) :: post) = all_entities (pre ++ post).
Proof.
  unfold all_entities, values. rewrite !map_app, !concat_app. reflexivity.
Qed.

(** [create] reads the data through the flattened entities and the
    lookups only. *)
Lemma create_reads {shape : Type} (CirclesTheme DefaultTheme : Theme shape)
    (d1 d2 : dataset) (template output_file_name : string) :
  all_entities d1 = all_entities d2 ->
  (forall key, data_get d1 key = data_get d2 key) ->
  create CirclesTheme DefaultTheme d1 template output_file_name
  = create CirclesTheme DefaultTheme d2 template output_file_name.
Proof.
  intros Hall Hget. unfold create.
  assert (Hlay : calculate_canvas_and_viewbox d1 "landscape"
                 = calculate_canvas_and_viewbox d2 "landscape").
  { unfold calculate_canvas_and_viewbox, calculate_canvas_and_viewbox_body,
      get_entity_bounds. now rewrite Hall. }
  rewrite Hlay.
  destruct (calculate_canvas_and_viewbox d2 "landscape") as [lay|e];
    [|reflexivity].
  cbn [bind]. destruct lay as [[[[[pw ph] vx] vy] vw] vh]. f_equal.
  match goal with
  | |- fold_left _ ?items ?dwg = _ => generalize dwg; generalize items
  end.
  intros items. induction items as [|[c r] items IH]; intros dwg; simpl; [reflexivity|].
  rewrite Hget. apply IH.
Qed.

(** X11. A category that is present with no entity counts as absent:
    taking it out of the collection changes neither the outcome of
    [create] nor the drawing it returns. *)
Theorem create_ignores_empty_category {shape : Type}
    (CirclesTheme DefaultTheme : Theme shape)
    (pre post : dataset) (category template output_file_name : string) :
  ~ In category (map fst (pre ++ post)) ->
  create CirclesTheme DefaultTheme (pre ++ (category, []) :: post)
    template output_file_name
  = create CirclesTheme DefaultTheme (pre ++ post) template output_file_name.
Proof.
  intros Hnot. apply create_reads.
  - apply all_entities_without_empty.
  - intros key. now apply data_get_without_empty.
Qed.

Lemma create_ignores_empty_category_witness :
  create echo echo
    ([ ("belts"%string, [ent 0 0; ent 9 4]) ] ++
     ("walls"%string, []) :: [ ("rails"%string, [ent 3 3]) ])
    "default" "output.svg"
  = create echo echo
      ([ ("belts"%string, [ent 0 0; ent 9 4]) ] ++ [ ("rails"%string, [ent 3 3]) ])
      "default" "output.svg".
Proof.
  apply create_ignores_empty_category.
  simpl. intros [H | [H | []]]; discriminate H.
Defined.

(** ** The page of the drawing *)

Lemma add_category_page {shape : Type} (data : dataset) (dwg : drawing shape)
    (item : string * (entity.t -> shape)) :
  filename (add_category data dwg item) = filename dwg /\
  size (add_category data dwg item) = size dwg /\
  viewBox (add_category data dwg item) = viewBox dwg.
Proof.
  destruct item as [c r]. unfold add_category.
  destruct (data_get data c); repeat split; reflexivity.
Qed.

Lemma loop_page {shape : Type} (data : dataset)
    (items : list (string * (entity.t -> shape))) (dwg : drawing shape) :
  filename (fold_left (add_category data) items dwg) = filename dwg /\
  size (fold_left (add_category data) items dwg) = size dwg /\
  viewBox (fold_left (add_category data) items dwg) = viewBox dwg.
Proof.
  revert dwg. induction items as [|item items IH]; intros dwg; simpl.
  - repeat split; reflexivity.
  - destruct (IH (add_category data dwg item)) as (F & S & V).
    destruct (add_category_page data dwg item) as (F' & S' & V').
    rewrite F, S, V. auto.
Qed.

(** X12. Whatever the template, a drawing returned by [create] carries
    the given file name, the A4 landscape size 297 by 210 and, as its
    viewBox, the viewbox [calculate_canvas_and_viewbox] returns for
    ['landscape']. *)
Theorem create_page {shape : Type} (CirclesTheme DefaultTheme : Theme shape)
    (data : dataset) (template output_file_name : string) (dwg : drawing shape) :
  create CirclesTheme DefaultTheme data template output_file_name = Ok dwg ->
  filename dwg = output_file_name /\
  size dwg = (297, 210) /\
  exists viewbox_x viewbox_y viewbox_width viewbox_height,
    viewBox dwg = (viewbox_x, viewbox_y, viewbox_width, viewbox_height) /\
    calculate_canvas_and_viewbox data "landscape"
    = Ok (297, 210, viewbox_x, viewbox_y, viewbox_width, viewbox_height).
Proof.
  unfold create. intros Hc.
  destruct (layout_cases data "landscape")
    as [[_ Hr] | [(b & _ & _ & Hr) | (b & _ & _ & _ & Hr)]];
    rewrite Hr in Hc |- *; try discriminate Hc.
  cbn [bind returned] in Hc.
  match type of Hc with
  | Ok (fold_left (add_category data) ?items ?d) = Ok _ =>
      assert (E : fold_left (add_category data) items d = dwg)
        by congruence;
      destruct (loop_page data items d) as (F & S & V);
      rewrite E in F, S, V; rewrite F, S, V
  end.
  repeat split. do 4 eexists. split; reflexivity.
Qed.

Lemma create_page_witness :
  exists dwg,
    create echo echo scenario_data "circles" "factory.svg" = Ok dwg /\
    filename dwg = "factory.svg"%string /\
    size dwg = (297, 210) /\
    exists viewbox_x viewbox_y viewbox_width viewbox_height,
      viewBox dwg = (viewbox_x, viewbox_y, viewbox_width, viewbox_height) /\
      calculate_canvas_and_viewbox scenario_data "landscape"
      = Ok (297, 210, viewbox_x, viewbox_y, viewbox_width, viewbox_height).
Proof.
  destruct (create echo echo scenario_data "circles" "factory.svg")
    as [dwg|e] eqn:E; [|vm_compute in E; discriminate E].
  exists dwg. split; [reflexivity|].
  exact (create_page echo echo scenario_data "circles" "factory.svg" dwg E).
Defined.

(** ** Entities inside the rectangle *)

(** X13. Only the extreme entities matter: entities added anywhere in
    the collection that lie inside its rectangle change the bounds and the
    layout by nothing but the representation of the numbers. *)
Theorem interior_entities_keep_layout
    (d1 d2 : dataset) (b : bounds.t) (orientation : string) :
  get_entity_bounds d1 = Some b ->
  (forall e, entity_of d1 e -> entity_of d2 e) ->
  (forall e, entity_of d2 e -> inside b e) ->
  same_optional_bounds (get_entity_bounds d1) (get_entity_bounds d2) /\
  same_result same_layout
    (calculate_canvas_and_viewbox d1 orientation)
    (calculate_canvas_and_viewbox d2 orientation).
Proof.
  intros E1 Hsub Hin.
  destruct (get_entity_bounds d2) as [b2|] eqn:E2.
  - assert (Hb : same_bounds b b2).
    { pose proof (bounds_attained d1 b E1) as (A1 & A2 & A3 & A4).
      pose proof (bounds_attained d2 b2 E2) as (B1 & B2 & B3 & B4).
      pose proof (bounds_some_inside d2 b2 E2) as I2.
      unfold same_bounds.
      repeat split; apply Qle_antisym;
        match goal with
        | |- bounds.min_x b <= bounds.min_x b2 =>
            destruct B1 as (e & He & <-); apply (Hin e He)
        | |- bounds.min_x b2 <= bounds.min_x b =>
            destruct A1 as (e & He & <-); apply Hsub in He; apply (I2 e He)
        | |- bounds.max_x b <= bounds.max_x b2 =>
            destruct A2 as (e & He & <-); apply Hsub in He; apply (I2 e He)
        | |- bounds.max_x b2 <= bounds.max_x b =>
            destruct B2 as (e & He & <-); apply (Hin e He)
        | |- bounds.min_y b <= bounds.min_y b2 =>
            destruct B3 as (e & He & <-); apply (Hin e He)
        | |- bounds.min_y b2 <= bounds.min_y b =>
            destruct A3 as (e & He & <-); apply Hsub in He; apply (I2 e He)
        | |- bounds.max_y b <= bounds.max_y b2 =>
            destruct A4 as (e & He & <-); apply Hsub in He; apply (I2 e He)
        | |- bounds.max_y b2 <= bounds.max_y b =>
            destruct B4 as (e & He & <-); apply (Hin e He)
        end. }
    rewrite E1. split; [exact Hb|].
    exact (layout_same d1 d2 b b2 orientation E1 E2 Hb).
  - exfalso. destruct (bounds_attained d1 b E1) as ((e & He & _) & _).
    apply Hsub, in_all_entities in He.
    apply bounds_none in E2. rewrite E2 in He. destruct He.
Qed.

Lemma interior_entities_keep_layout_witness :
  same_optional_bounds
    (get_entity_bounds scenario_data)
    (get_entity_bounds (scenario_data ++ [ ("walls"%string, [ent 30 (99 # 2)]) ])) /\
  same_result same_layout
    (calculate_canvas_and_viewbox scenario_data "landscape")
    (calculate_canvas_and_viewbox
       (scenario_data ++ [ ("walls"%string, [ent 30 (99 # 2)]) ]) "landscape").
Proof.
  apply (interior_entities_keep_layout scenario_data
           (scenario_data ++ [ ("walls"%string, [ent 30 (99 # 2)]) ])
           scenario_bounds "landscape").
  - reflexivity.
  - intros e (c & es & Hc & He). exists c, es. split; [|exact He].
    apply in_or_app. now left.
  - intros e (c & es & Hc & He). simpl in Hc.
    destruct Hc as [Hc | [Hc | []]]; injection Hc as <- <-; simpl in He;
      repeat match goal with
             | H : _ \/ _ |- _ => destruct H
             | H : False |- _ => destruct H
             end; subst e; vm_compute; repeat split; discriminate.
Defined.

(** ** Landscape against portrait *)

Lemma Qdiv_le_num (a b c : Q) : 0 < c -> a <= b -> a / c <= b / c.
Proof.
  intros Hc Hab. unfold Qdiv. apply Qmult_le_compat_r; [exact Hab|].
  apply Qlt_le_weak. now apply Qinv_lt_0_compat.
Qed.

Lemma Qdiv_le_den (a c d : Q) : 0 <= a -> 0 < c -> c <= d -> a / d <= a / c.
Proof.
  intros Ha Hc Hcd.
  apply Qle_shift_div_l; [exact Hc|].
  setoid_replace (a / d * c) with (a * c / d) by (field; lra).
  apply Qle_shift_div_r; [lra|]. nra.
Qed.

(** X14. For a blueprint at least as wide as high the landscape page
    gives a scale at least as large as the portrait page. *)
Theorem landscape_suits_wide (data : dataset) (b : bounds.t) :
  get_entity_bounds data = Some b ->
  0 < bounds.max_x b - bounds.min_x b ->
  0 < bounds.max_y b - bounds.min_y b ->
  bounds.max_y b - bounds.min_y b <= bounds.max_x b - bounds.min_x b ->
  exists fl fp,
    calculate_canvas_and_viewbox_body data "landscape" = Ok fl /\
    calculate_canvas_and_viewbox_body data "portrait" = Ok fp /\
    frame.scale fp <= frame.scale fl.
Proof.
  intros Hb Hw Hh Hwide.
  exists (Spec.compute_frame b Spec.Landscape),
         (Spec.compute_frame b Spec.Portrait).
  split; [exact (body_frame data b Hb Hw Hh Spec.Landscape)|].
  split; [exact (body_frame data b Hb Hw Hh Spec.Portrait)|].
  cbn [Spec.compute_frame frame.scale Spec.page_width_mm Spec.page_height_mm].
  unfold Spec.padding.
  set (w := bounds.max_x b - bounds.min_x b) in *.
  set (h := bounds.max_y b - bounds.min_y b) in *.
  clearbody w h.
  apply Q.min_glb.
  - eapply Qle_trans; [apply Q.le_min_l|]. apply Qdiv_le_num; lra.
  - eapply Qle_trans; [apply Q.le_min_l|]. apply Qdiv_le_den; lra.
Qed.

Lemma landscape_suits_wide_witness :
  exists fl fp,
    calculate_canvas_and_viewbox_body scenario_data "landscape" = Ok fl /\
    calculate_canvas_and_viewbox_body scenario_data "portrait" = Ok fp /\
    frame.scale fp <= frame.scale fl.
Proof.
  apply (landscape_suits_wide scenario_data scenario_bounds);
    first [reflexivity | vm_compute; discriminate].
Defined.
